(** * Shark: the ensemble [MeanModel] and the online recurrent network [OnlineRNNet]

    A shallow embedding of
    - [include/shark/Models/MeanModel.h]
    - [include/shark/Models/OnlineRNNet.h]

    A C++ [double] is Rocq's primitive binary64 [float]: every operation below
    is the IEEE 754 operation the compiled program performs, and every
    definition evaluates.  No law of real arithmetic is used anywhere; the
    only facts about doubles are the specifications of their comparisons.
    [std::size_t] sizes and indices are [nat]. *)

From Stdlib Require Import Floats.
From stdpp Require Import base list gmap strings.

Local Open Scope float_scope.
Local Open Scope nat_scope.

(** Equality of doubles as values is decided by the primitive test. *)
#[global] Instance float_eq_dec : EqDecision float.
Proof.
  intros x y. destruct (PrimFloat.Leibniz.eqb x y) eqn:Hxy.
  - left. now apply FloatAxioms.Leibniz.eqb_spec.
  - right. intros Heq. apply FloatAxioms.Leibniz.eqb_spec in Heq. congruence.
Defined.

(** ** Exceptions and member functions *)

(** What a call can throw.  [SharkException what] is the object built by
    [throw SHARKEXCEPTION(what)]; [DimensionError] is the shape error of a
    failed size or range check; [ConfigurationError] is the usage error of
    asking for a gradient that is not tracked. *)
Inductive Exception : Type :=
| SharkException (what : string)
| DimensionError
| ConfigurationError.

Inductive Exc (A : Type) : Type :=
| Ok (a : A)
| Throw (e : Exception).
Arguments Ok {A} a.
Arguments Throw {A} e.

(** A non-const member function on an object of type [S]: it returns or
    throws, and in both cases leaves the object in some state. *)
Definition Method (S A : Type) : Type := S → Exc A * S.

Definition ret {S A} (a : A) : Method S A := λ s, (Ok a, s).
Definition throw {S A} (e : Exception) : Method S A := λ s, (Throw e, s).
Definition bind {S A B} (m : Method S A) (k : A → Method S B) : Method S B :=
  λ s, match m s with
       | (Ok a, s') => k a s'
       | (Throw e, s') => (Throw e, s')
       end.
Definition get {S} : Method S S := λ s, (Ok s, s).
Definition modify {S} (f : S → S) : Method S unit := λ s, (Ok tt, f s).

Declare Scope method_scope.
Delimit Scope method_scope with method.
Notation "x <~ m ;; k" := (bind m (λ x, k))
  (at level 100, m at next level, right associativity) : method_scope.
Notation "m ;;; k" := (bind m (λ _, k))
  (at level 100, right associativity) : method_scope.
Local Open Scope method_scope.

(** Modelled from the spec: the macro [SHARK_RUNTIME_CHECK] is declared in
    [shark/Core/Exception.h], which is not part of the sources at hand.  A
    violated check is a usage error that fails immediately and loudly: the
    macro throws a [SHARKEXCEPTION] carrying its message when the condition
    is false, and does nothing otherwise. *)
Definition SHARK_RUNTIME_CHECK {S} (cond : bool) (message : string) : Method S unit :=
  if cond then ret tt else throw (SharkException message).

(** ** Dense vectors and matrices *)

(** [RealVector] is a sequence of doubles, [RealMatrix] a row-major sequence
    of rows. *)
Abbreviation RealVector := (list float).
Abbreviation RealMatrix := (list RealVector).

Module blas.

(** [RealVector v(n, x)] *)
Definition vector (n : nat) (x : float) : RealVector := replicate n x.

(** [RealMatrix m(rows, columns, x)] *)
Definition matrix (rows columns : nat) (x : float) : RealMatrix :=
  replicate rows (replicate columns x).

(** [m.size1()] and the number of stored entries. *)
Definition size1 (m : RealMatrix) : nat := length m.
Definition stored (m : RealMatrix) : nat := sum_list (map length m).

(** [v(i)] with its range check. *)
Definition at_ {S} (v : RealVector) (i : nat) : Method S float :=
  match v !! i with
  | Some x => ret x
  | None => throw DimensionError
  end.

(** [v(i)] where the index is known to be in range; past the end the
    value read is unspecified and is taken to be zero here. *)
Definition get (v : RealVector) (i : nat) : float := default 0%float (v !! i).

(** [v.clear()] of a [RealVector]: every entry is set to zero and the size
    is kept.  The vector class is declared in [shark/LinAlg], which is not
    part of the sources at hand; unlike [std::vector::clear()], its
    [clear()] does not empty the vector. *)
Definition clear (v : RealVector) : RealVector := replicate (length v) 0%float.

(** [v.resize(n)]: the leading entries are kept and new entries are zero. *)
Definition resize (v : RealVector) (n : nat) : RealVector := list.resize n 0%float v.

(** [subrange(v, start, stop) = e] with its range and size checks; the
    result is the new content of [v]. *)
Definition assign_subrange {S} (v : RealVector) (start stop : nat) (e : RealVector)
    : Method S RealVector :=
  if decide (start ≤ stop ∧ stop ≤ length v ∧ length e = stop - start)
  then ret (take start v ++ e ++ drop stop v)
  else throw DimensionError.

(** [m(i, j)], checked and unchecked. *)
Definition entry (m : RealMatrix) (i j : nat) : option float :=
  row ← m !! i; row !! j.
Definition get2 (m : RealMatrix) (i j : nat) : float := default 0%float (entry m i j).

(** The sum of [F 0 .. F (n-1)], accumulated from the first term to the last. *)
Definition sum_over (n : nat) (F : nat → float) : float :=
  foldl (λ acc l, acc + F l)%float 0%float (seq 0 n).

(** [inner_prod(u, v)], accumulated from the first entry to the last. *)
Definition inner_prod (u v : RealVector) : float :=
  foldl PrimFloat.add 0%float (zip_with PrimFloat.mul u v).

(** [sum(v)], accumulated from the first entry to the last. *)
Definition sum (v : RealVector) : float := foldl PrimFloat.add 0%float v.

(** [m *= x], [x * m], [m += n] and [m /= x], entry by entry. *)
Definition times_assign (m : RealMatrix) (x : float) : RealMatrix :=
  map (map (λ e, e * x)%float) m.
Definition scalar_times (x : float) (m : RealMatrix) : RealMatrix :=
  map (map (λ e, x * e)%float) m.
Definition plus_assign (m n : RealMatrix) : RealMatrix :=
  zip_with (zip_with PrimFloat.add) m n.
Definition divide_assign (m : RealMatrix) (x : float) : RealMatrix :=
  map (map (λ e, e / x)%float) m.

(** A matrix of [rows] rows of [columns] entries. *)
Definition has_shape (rows columns : nat) (m : RealMatrix) : Prop :=
  length m = rows ∧ Forall (λ row, length row = columns) m.

#[global] Instance has_shape_dec rows columns m : Decision (has_shape rows columns m).
Proof. unfold has_shape. apply _. Defined.

(** [max(v)] of a vector of unsigned integers; 0 for the empty vector. *)
Definition max (v : list N) : N := foldl N.max 0%N v.

(** [arg_max(v)]: the index of the first entry that no entry is greater
    than, found by one scan that moves to a later entry only when it is
    strictly greater; 0 for the empty vector. *)
Fixpoint arg_max_from (best : nat) (largest : float) (i : nat) (v : RealVector) : nat :=
  match v with
  | [] => best
  | x :: rest =>
      if (largest <? x)%float
      then arg_max_from i x (S i) rest
      else arg_max_from best largest (S i) rest
  end.
Definition arg_max (v : RealVector) : nat :=
  match v with
  | [] => 0
  | x :: rest => arg_max_from 0 x 1 rest
  end.

(** [norm_sqr(v)], the squares accumulated from the first entry to the last. *)
Definition norm_sqr (v : RealVector) : float :=
  foldl (λ acc x, acc + x * x)%float 0%float v.

End blas.

(** ** MeanModel.h *)

Module MeanModel.
Section MeanModel.

Context {ModelType BatchInputType : Type}.

(** [model(patterns)] for a member of the ensemble. *)
Variable model_eval : ModelType → BatchInputType → RealMatrix.

Record MeanModel : Type := {
  m_models : list ModelType;      (* collection of models *)
  m_weight : RealVector;          (* weight of the mean *)
  m_weightSum : float             (* total sum of weights *)
}.

Definition set_models (f : list ModelType → list ModelType) (self : MeanModel) : MeanModel :=
  {| m_models := f (m_models self); m_weight := m_weight self; m_weightSum := m_weightSum self |}.
Definition set_weight (f : RealVector → RealVector) (self : MeanModel) : MeanModel :=
  {| m_models := m_models self; m_weight := f (m_weight self); m_weightSum := m_weightSum self |}.
Definition set_weightSum (f : float → float) (self : MeanModel) : MeanModel :=
  {| m_models := m_models self; m_weight := m_weight self; m_weightSum := f (m_weightSum self) |}.

(** [MeanModel():m_weightSum(0){}] *)
Definition ctor : MeanModel :=
  {| m_models := []; m_weight := []; m_weightSum := 0%float |}.

(** [clearModels()]: [m_models] is a [std::vector], which [clear()]
    empties; [m_weight] is a [RealVector], which [clear()] fills with
    zeros. *)
Definition clearModels : Method MeanModel unit :=
  modify (set_models (λ _, [])) ;;;
  modify (set_weight blas.clear) ;;;
  modify (set_weightSum (λ _, 0%float)).

(** [addModel(model, weight)] *)
Definition addModel (model : ModelType) (weight : float) : Method MeanModel unit :=
  SHARK_RUNTIME_CHECK (0 <? weight)%float "Weights must be positive" ;;;
  modify (set_models (λ models, models ++ [model])) ;;;
  modify (set_weight (λ w, w ++ [weight])) ;;;
  modify (set_weightSum (λ total, total + weight)%float).

(** [setWeight(i, newWeight)]; reading [m_weight[i]] past the end is the
    vector's failed range check. *)
Definition setWeight (i : nat) (newWeight : float) : Method MeanModel unit :=
  self <~ get ;;
  old <~ blas.at_ (m_weight self) i ;;
  modify (set_weightSum (λ _, newWeight - old)%float) ;;;
  modify (set_weight (λ w, <[i := newWeight]> w)).

(** The loop of [doEval] over the models [i = 1 .. size-1]. *)
Fixpoint doEval_loop (self : MeanModel) (patterns : BatchInputType)
    (indices : list nat) (outputs : RealMatrix) : Exc (RealMatrix) :=
  match indices with
  | [] => Ok outputs
  | i :: rest =>
      match m_models self !! i, m_weight self !! i with
      | Some model, Some w =>
          doEval_loop self patterns rest
            (blas.plus_assign outputs (blas.scalar_times w (model_eval model patterns)))
      | _, _ => Throw DimensionError
      end
  end.

(** [doEval(patterns, outputs)] for real-valued outputs: const on the model. *)
Definition doEval (self : MeanModel) (patterns : BatchInputType) : Exc (RealMatrix) :=
  match m_models self !! 0, m_weight self !! 0 with
  | Some model, Some w =>
      let outputs := blas.times_assign (model_eval model patterns) w in
      match doEval_loop self patterns (seq 1 (length (m_models self) - 1)) outputs with
      | Ok outputs => Ok (blas.divide_assign outputs (m_weightSum self))
      | Throw e => Throw e
      end
  | _, _ => Throw DimensionError
  end.

(** A caller's sequence of calls on one ensemble. *)
Inductive Call : Type :=
| AddModel (model : ModelType) (weight : float)
| SetWeight (i : nat) (newWeight : float)
| ClearModels.

Definition call (c : Call) : Method MeanModel unit :=
  match c with
  | AddModel model weight => addModel model weight
  | SetWeight i newWeight => setWeight i newWeight
  | ClearModels => clearModels
  end.

(** The ensemble after the calls, a thrown exception being caught by the
    caller. *)
Definition calls (cs : list Call) (self : MeanModel) : MeanModel :=
  foldl (λ s c, snd (call c s)) self cs.

(** A call other than [setWeight]. *)
Definition not_setWeight (c : Call) : Prop :=
  match c with
  | SetWeight _ _ => False
  | _ => True
  end.

#[global] Instance not_setWeight_dec (c : Call) : Decision (not_setWeight c).
Proof. destruct c; apply _. Defined.

(** The stored total is the sum of the stored weights. *)
Definition weightSum_consistent (self : MeanModel) : Prop :=
  m_weightSum self = blas.sum (m_weight self).

#[global] Instance weightSum_consistent_dec (self : MeanModel)
  : Decision (weightSum_consistent self).
Proof. unfold weightSum_consistent. apply _. Defined.

(** [numberOfModels()] *)
Definition numberOfModels (self : MeanModel) : nat := length (m_models self).

(** [getModel(index)]: [m_models[index]], which has no value past the end. *)
Definition getModel (self : MeanModel) (index : nat) : option ModelType :=
  m_models self !! index.

(** [weight(i)]: [m_weight[i]] with its range check. *)
Definition weight (self : MeanModel) (i : nat) : Exc float :=
  match m_weight self !! i with
  | Some w => Ok w
  | None => Throw DimensionError
  end.

(** [eval(patterns, outputs)] and [eval(patterns, outputs, state)]: the
    state is not looked at. *)
Definition eval (self : MeanModel) (patterns : BatchInputType) : Exc RealMatrix :=
  doEval self patterns.
Definition eval_with_state {State : Type} (self : MeanModel) (patterns : BatchInputType)
    (state : State) : Exc RealMatrix :=
  eval self patterns.

(** *** Serialization *)

(** An archive is the sequence of the values streamed into it: [<<] appends
    a value and [>>] takes the first one, which must be of the type asked
    for. *)
Inductive Item : Type :=
| ModelsItem (models : list ModelType)
| VectorItem (v : RealVector)
| DoubleItem (x : float).

(** [write(archive)]: the models, the weights, the total. *)
Definition write (self : MeanModel) : Method (list Item) unit :=
  modify (λ archive, archive ++ [ModelsItem (m_models self)]) ;;;
  modify (λ archive, archive ++ [VectorItem (m_weight self)]) ;;;
  modify (λ archive, archive ++ [DoubleItem (m_weightSum self)]).

(** [read(archive)]: the three members in the order of [write]; there is no
    result when the archive does not hold them.  The result is the ensemble
    read and the rest of the archive. *)
Definition read (self : MeanModel) (archive : list Item) : option (MeanModel * list Item) :=
  match archive with
  | ModelsItem models :: archive1 =>
      let self1 := set_models (λ _, models) self in
      match archive1 with
      | VectorItem w :: archive2 =>
          let self2 := set_weight (λ _, w) self1 in
          match archive2 with
          | DoubleItem total :: archive3 => Some (set_weightSum (λ _, total) self2, archive3)
          | _ => None
          end
      | _ => None
      end
  | _ => None
  end.

(** *** The vote of classifiers *)

(** [m_models[i].eval(patterns, responses[i])] for a classifier, with
    [unsigned int] labels, and [patterns.size1()]. *)
Variable model_classify : ModelType → BatchInputType → list N.
Variable size1 : BatchInputType → nat.

(** The largest label of all responses, and [numClasses], an
    [unsigned int] one greater. *)
Definition largest_label (responses : list (list N)) : N :=
  foldl (λ numClasses response, N.max numClasses (blas.max response)) 0%N responses.
Definition numClasses_of (responses : list (list N)) : N :=
  ((largest_label responses + 1) mod 2 ^ 32)%N.

(** [classProbs(p, c) += w] with its range checks. *)
Definition add_vote (classProbs : RealMatrix) (p : nat) (c : N) (w : float) : Exc RealMatrix :=
  match classProbs !! p with
  | Some row =>
      match row !! N.to_nat c with
      | Some x => Ok (<[p := <[N.to_nat c := (x + w)%float]> row]> classProbs)
      | None => Throw DimensionError
      end
  | None => Throw DimensionError
  end.

(** The inner loop over the patterns [p] for one model. *)
Fixpoint vote_patterns (response : list N) (w : float) (ps : list nat)
    (classProbs : RealMatrix) : Exc RealMatrix :=
  match ps with
  | [] => Ok classProbs
  | p :: rest =>
      match response !! p with
      | Some c =>
          match add_vote classProbs p c w with
          | Ok classProbs' => vote_patterns response w rest classProbs'
          | Throw e => Throw e
          end
      | None => Throw DimensionError
      end
  end.

(** The outer loop over the models [i]. *)
Fixpoint vote_models (self : MeanModel) (responses : list (list N)) (batch : nat)
    (indices : list nat) (classProbs : RealMatrix) : Exc RealMatrix :=
  match indices with
  | [] => Ok classProbs
  | i :: rest =>
      match responses !! i, m_weight self !! i with
      | Some response, Some w =>
          match vote_patterns response w (seq 0 batch) classProbs with
          | Ok classProbs' => vote_models self responses batch rest classProbs'
          | Throw e => Throw e
          end
      | _, _ => Throw DimensionError
      end
  end.

(** [doEval(patterns, outputs)] for labels: every model votes for its
    response to each pattern with its weight, and the output is the class
    of the largest total; const on the model. *)
Definition doEval_vote (self : MeanModel) (patterns : BatchInputType) : Exc (list N) :=
  let responses := (λ model, model_classify model patterns) <$> m_models self in
  let classProbs :=
    blas.matrix (size1 patterns) (N.to_nat (numClasses_of responses)) 0%float in
  match vote_models self responses (size1 patterns)
          (seq 0 (length (m_models self))) classProbs with
  | Ok classProbs' => Ok ((λ row, N.of_nat (blas.arg_max row)) <$> classProbs')
  | Throw e => Throw e
  end.

End MeanModel.
Arguments MeanModel : clear implicits.
Arguments Call : clear implicits.
Arguments Item : clear implicits.
End MeanModel.

(** ** OnlineRNNet.h *)

Module OnlineRNNet.

(** Modelled from the spec: [RecurrentStructure] is declared in
    [shark/Models/RecurrentStructure.h], which is not part of the sources at
    hand.  The topology exposes the unit, neuron and parameter counts, the
    input and output sizes, a weight lookup giving for each neuron [k] and
    each unit [l] the connection weight (0 if unconnected) and the
    parameter index that owns that weight (or none for a constant
    connection), the declared latency of each connection ([recurrent k l]
    holds when the connection into neuron [k] from unit [l] reads the
    previous step, and fails when it is feedforward and reads the current
    step), and the activation function with its derivative, both evaluated
    at a scalar pre-activation. *)
Record RecurrentStructure : Type := {
  numberOfUnits : nat;
  numberOfNeurons : nat;
  parameters : nat;
  inputs : nat;
  outputs : nat;
  weight : nat → nat → float;
  parameterOf : nat → nat → option nat;
  recurrent : nat → nat → bool;
  neuron : float → float;
  neuronDerivative : float → float
}.

(** Modelled from the spec: the layout of the units.  The input slots come
    first, the neurons come last and the output neurons are a suffix of
    them; the units in between are bias or feed-through units.  Neuron [k]
    is the unit at this index. *)
Definition neuronUnit (structure : RecurrentStructure) (k : nat) : nat :=
  numberOfUnits structure - numberOfNeurons structure + k.

(** [struct InternalState] *)
Record InternalState : Type := {
  activation : RealVector;        (* activation at time t (after evaluation) *)
  lastActivation : RealVector;    (* activation at time t-1 (before evaluation) *)
  unitGradient : RealMatrix       (* gradient of the units w.r.t. every weight *)
}.

Definition set_activation (f : RealVector → RealVector) (s : InternalState) : InternalState :=
  {| activation := f (activation s); lastActivation := lastActivation s;
     unitGradient := unitGradient s |}.
Definition set_lastActivation (f : RealVector → RealVector) (s : InternalState) : InternalState :=
  {| activation := activation s; lastActivation := f (lastActivation s);
     unitGradient := unitGradient s |}.
Definition set_unitGradient (f : RealMatrix → RealMatrix) (s : InternalState) : InternalState :=
  {| activation := activation s; lastActivation := lastActivation s;
     unitGradient := f (unitGradient s) |}.

(** [InternalState(RecurrentStructure const& structure)] *)
Definition InternalState_ctor (structure : RecurrentStructure) : InternalState :=
  {| activation := blas.vector (numberOfUnits structure) 0%float;
     lastActivation := blas.vector (numberOfUnits structure) 0%float;
     unitGradient :=
       blas.matrix (parameters structure) (numberOfNeurons structure) 0%float |}.

Record OnlineRNNet : Type := {
  mpe_structure : RecurrentStructure;   (* the topology of the network *)
  m_computeGradient : bool              (* whether the network should compute a gradient *)
}.

(** Modelled from the spec: the body of the constructor
    [OnlineRNNet(structure, computeGradient)] is in [OnlineRNNet.cpp], which
    is not part of the sources at hand.  It binds the evaluator to the
    topology and fixes the gradient-tracking flag. *)
Definition ctor (structure : RecurrentStructure) (computeGradient : bool) : OnlineRNNet :=
  {| mpe_structure := structure; m_computeGradient := computeGradient |}.

Definition inputSize (self : OnlineRNNet) : nat := inputs (mpe_structure self).
Definition outputSize (self : OnlineRNNet) : nat := outputs (mpe_structure self).
Definition numberOfParameters (self : OnlineRNNet) : nat := parameters (mpe_structure self).

(** The state objects handed out as [boost::shared_ptr<State>], by address. *)
Abbreviation Heap := (gmap nat InternalState).

(** [createState()]: a new [InternalState] object and its address. *)
Definition createState (self : OnlineRNNet) (h : Heap) : nat * Heap :=
  let p := fresh (dom h) in
  (p, <[p := InternalState_ctor (mpe_structure self)]> h).

(** [eval(pattern, output)], the overload without a state object; the
    object it acts on is the caller's [output]. *)
Definition eval_without_state (self : OnlineRNNet) (pattern : RealMatrix)
    : Method RealMatrix unit :=
  throw (SharkException "[OnlineRNNet::eval] Eval can not be called without state object").

(** [setOutputActivation(state, activation)].  When the output size exceeds
    the number of units, the [std::size_t] difference wraps around to a
    start past the end of the vector, which the range check refuses. *)
Definition setOutputActivation (self : OnlineRNNet) (activation_ : RealVector)
    : Method InternalState unit :=
  let units := numberOfUnits (mpe_structure self) in
  modify (set_activation (λ a, blas.resize a units)) ;;;
  s <~ get ;;
  a <~ (if decide (outputSize self ≤ units)
        then blas.assign_subrange (activation s) (units - outputSize self) units activation_
        else throw DimensionError) ;;
  modify (set_activation (λ _, a)).

(** *** The evaluation step, the sensitivity recurrence and the contraction *)

(** The shape a state keeps through a sequence, and the layout a topology
    has. *)
Definition state_shape (structure : RecurrentStructure) (s : InternalState) : Prop :=
  length (activation s) = numberOfUnits structure ∧
  length (lastActivation s) = numberOfUnits structure ∧
  length (unitGradient s) = parameters structure ∧
  Forall (λ row, length row = numberOfNeurons structure) (unitGradient s).

Definition structure_layout (structure : RecurrentStructure) : Prop :=
  inputs structure + numberOfNeurons structure ≤ numberOfUnits structure ∧
  outputs structure ≤ numberOfNeurons structure.

(** Modelled from the spec: the ordering requirement on a topology.  The
    neurons are processed in index order, so a feedforward connection into
    a neuron comes from a unit before it: an input or feed-through unit, or
    a neuron updated earlier in the step. *)
Definition feedforward_ordered (structure : RecurrentStructure) : Prop :=
  Forall (λ k, Forall (λ l, recurrent structure k l = false → l < neuronUnit structure k)
                      (seq 0 (numberOfUnits structure)))
         (seq 0 (numberOfNeurons structure)).

#[global] Instance state_shape_dec structure s : Decision (state_shape structure s).
Proof. unfold state_shape. apply _. Defined.

#[global] Instance structure_layout_dec structure : Decision (structure_layout structure).
Proof. unfold structure_layout. apply _. Defined.

#[global] Instance feedforward_ordered_dec structure : Decision (feedforward_ordered structure).
Proof. unfold feedforward_ordered. apply _. Defined.

(** Modelled from the spec: the value neuron [k] reads over the connection
    from unit [l] during a step, by the declared latency of the connection:
    a recurrent connection reads the previous activation, a feedforward
    connection reads the current activation, where the input of the step
    has been copied and the neurons earlier in the order have been
    updated. *)
Definition source (structure : RecurrentStructure) (s : InternalState) (k l : nat) : float :=
  if recurrent structure k l
  then blas.get (lastActivation s) l
  else blas.get (activation s) l.

(** Modelled from the spec: the pre-activation of neuron [k], the weighted
    sum over all units with the weights of the topology's table. *)
Definition preActivation (structure : RecurrentStructure) (s : InternalState) (k : nat)
    : float :=
  blas.inner_prod (weight structure k <$> seq 0 (numberOfUnits structure))
                  (source structure s k <$> seq 0 (numberOfUnits structure)).

(** Modelled from the spec: the source unit whose connection into neuron
    [k] has parameter [p] as its weight, if there is one. *)
Definition feeding (structure : RecurrentStructure) (p k : nat) : option nat :=
  head (filter (λ l, parameterOf structure k l = Some p)
               (seq 0 (numberOfUnits structure))).

(** Modelled from the spec: the direct term of the recurrence, the value
    flowing over the connection that parameter [p] weighs, and 0 when [p] is
    the weight of no connection into [k]. *)
Definition direct (structure : RecurrentStructure) (s : InternalState) (p k : nat) : float :=
  match feeding structure p k with
  | Some l => source structure s k l
  | None => 0%float
  end.

(** The weights of the connections into neuron [k] from the neurons. *)
Definition recurrentWeights (structure : RecurrentStructure) (k : nat) : RealVector :=
  (λ l, weight structure k (neuronUnit structure l)) <$> seq 0 (numberOfNeurons structure).

(** Modelled from the spec: the sensitivities to parameter [p] that the
    neurons hand to neuron [k]: over a recurrent connection the entry of
    the tensor of the previous step, over a feedforward connection the
    entry of the row being updated, which holds the current step's value
    for the neurons earlier in the order. *)
Definition carried (structure : RecurrentStructure) (k : nat) (prior : RealMatrix)
    (p : nat) (row : RealVector) : RealVector :=
  (λ l, if recurrent structure k (neuronUnit structure l)
        then blas.get2 prior p l
        else blas.get row l)
    <$> seq 0 (numberOfNeurons structure).

(** Modelled from the spec: the sensitivity recurrence of real-time
    recurrent learning, for one neuron.  The sensitivity update is part of
    the body of [eval] in [OnlineRNNet.cpp], which is not part of the
    sources at hand.  In every row [p] the entry of neuron [k] becomes the
    derivative of the activation function at the pre-activation of [k],
    times the propagated sensitivities plus the direct term; [prior] is
    the tensor of the previous step. *)
Definition updateSensitivity (structure : RecurrentStructure) (s : InternalState)
    (prior : RealMatrix) (k : nat) (sensitivity : RealMatrix) : RealMatrix :=
  imap (λ p row,
          <[k := (neuronDerivative structure (preActivation structure s k)
                  * (blas.inner_prod (recurrentWeights structure k)
                                     (carried structure k prior p row)
                     + direct structure s p k))%float]> row)
       sensitivity.

(** A batch of size one of the given width. *)
Definition single_row {S} (batch : RealMatrix) (width : nat) : Method S RealVector :=
  match batch with
  | [row] => if decide (length row = width) then ret row else throw DimensionError
  | _ => throw DimensionError
  end.

(** Modelled from the spec: the update of neuron [k] within a step.  The
    neuron gets the activation function of its pre-activation as its new
    entry in [activation], and its sensitivities are updated when
    gradients are active.  On a state of the shape of the topology both
    writes are in range. *)
Definition updateNeuron (self : OnlineRNNet) (prior : RealMatrix) (s : InternalState)
    (k : nat) : InternalState :=
  let structure := mpe_structure self in
  {| activation :=
       <[neuronUnit structure k := neuron structure (preActivation structure s k)]>
         (activation s);
     lastActivation := lastActivation s;
     unitGradient :=
       if m_computeGradient self
       then updateSensitivity structure s prior k (unitGradient s)
       else unitGradient s |}.

(** Modelled from the spec: [eval(pattern, output, state)], whose body is in
    [OnlineRNNet.cpp], which is not part of the sources at hand.  One call
    processes one time index: (1) the current activation becomes the
    previous activation; (2) the input is copied into the input slots;
    (3) every neuron, in index order, gets the activation function of its
    pre-activation, and its sensitivities are updated when gradients are
    active; (4) the output slots, a suffix of the activation, are returned.
    An input of the wrong shape is a dimension error and leaves the state
    as it was. *)
Definition eval (self : OnlineRNNet) (pattern : RealMatrix) : Method InternalState RealMatrix :=
  let structure := mpe_structure self in
  let units := numberOfUnits structure in
  let neurons := numberOfNeurons structure in
  input <~ single_row pattern (inputSize self) ;;
  modify (λ s, set_lastActivation (λ _, activation s) s) ;;;
  s <~ get ;;
  a <~ blas.assign_subrange (activation s) 0 (inputSize self) input ;;
  modify (set_activation (λ _, a)) ;;;
  modify (λ s, foldl (updateNeuron self (unitGradient s)) s (seq 0 neurons)) ;;;
  s <~ get ;;
  ret [drop (units - outputSize self) (activation s)].

(** The state in which the first neuron reads its sources during a step:
    the previous activation saved and the input copied in. *)
Definition fed (self : OnlineRNNet) (input : RealVector) (s : InternalState) : InternalState :=
  {| activation := input ++ drop (inputSize self) (activation s);
     lastActivation := activation s;
     unitGradient := unitGradient s |}.

(** The state a step on a well-shaped input and state ends in
    ([eval_returns] below). *)
Definition stepped (self : OnlineRNNet) (input : RealVector) (s : InternalState)
    : InternalState :=
  foldl (updateNeuron self (unitGradient s)) (fed self input s)
        (seq 0 (numberOfNeurons (mpe_structure self))).

(** The state in which neuron [k] is updated during a step: the neurons
    before it have been updated. *)
Definition reached (self : OnlineRNNet) (input : RealVector) (s : InternalState) (k : nat)
    : InternalState :=
  foldl (updateNeuron self (unitGradient s)) (fed self input s) (seq 0 k).


(** Modelled from the spec: [weightedParameterDerivative(pattern,
    coefficients, state, gradient)], whose body is in [OnlineRNNet.cpp],
    which is not part of the sources at hand.  It contracts the sensitivity
    tensor with the coefficients of the output neurons, the last neurons.
    Without gradient tracking the call is a configuration error, told apart
    from the dimension error of coefficients of the wrong shape.  The call
    is const on the network and on the state. *)
Definition weightedParameterDerivative (self : OnlineRNNet) (pattern coefficients : RealMatrix)
    (state : InternalState) : Exc RealVector :=
  let neurons := numberOfNeurons (mpe_structure self) in
  if m_computeGradient self then
    match coefficients with
    | [c] =>
        if decide (length c = outputSize self)
        then Ok ((λ row, blas.inner_prod c (drop (neurons - outputSize self) row))
                   <$> unitGradient state)
        else Throw DimensionError
    | _ => Throw DimensionError
    end
  else Throw ConfigurationError.

(** One time index of a caller's sequence: the input pattern, and the loss
    coefficients when the gradient contraction is invoked after the step. *)
Record TimeStep : Type := {
  pattern_of : RealMatrix;
  coefficients_of : option RealMatrix
}.

(** What the caller observes at one time index. *)
Abbreviation Observation := (Exc RealMatrix * option (Exc RealVector))%type.

(** A sequence fed to one state object, one [eval] per time index. *)
Fixpoint run (self : OnlineRNNet) (steps : list TimeStep) (s : InternalState)
    : list Observation * InternalState :=
  match steps with
  | [] => ([], s)
  | step :: rest =>
      let r := eval self (pattern_of step) s in
      let gradient :=
        (λ c, weightedParameterDerivative self (pattern_of step) c (snd r))
          <$> coefficients_of step in
      let rs := run self rest (snd r) in
      ((fst r, gradient) :: fst rs, snd rs)
  end.

End OnlineRNNet.

(** ** Sphere.h *)

Module Sphere.
Section Sphere.

(** The global random number generator: its state, and [Rng::uni(lower,
    upper)], which returns a double and moves the generator on. *)
Context {Rng : Type}.
Variable uni : float → float → Rng → float * Rng.

(** The flag [CAN_PROPOSE_STARTING_POINT] of the feature bits, and the
    number of values of the unsigned type of the evaluation counter, both
    declared with the base class. *)
Variable CAN_PROPOSE_STARTING_POINT : N.
Variable counter_values : N.

(** The members: [m_numberOfVariables], and of the base class the mutable
    [m_evaluationCounter] and the feature bits [m_features]. *)
Record Sphere : Type := {
  m_numberOfVariables : N;
  m_evaluationCounter : N;
  m_features : N
}.

(** [Sphere(numberOfVariables)], on the object as the base class
    constructor leaves it.  The parameter is an [unsigned int] of 32 bits:
    the argument is taken modulo 2^32. *)
Definition ctor (base : Sphere) (numberOfVariables : N) : Sphere :=
  {| m_numberOfVariables := (numberOfVariables mod 2 ^ 32)%N;
     m_evaluationCounter := m_evaluationCounter base;
     m_features := N.lor (m_features base) CAN_PROPOSE_STARTING_POINT |}.

Definition numberOfVariables (self : Sphere) : N := m_numberOfVariables self.

Definition hasScalableDimensionality (self : Sphere) : bool := true.

(** [setNumberOfVariables(numberOfVariables)] *)
Definition setNumberOfVariables (numberOfVariables : N) : Method Sphere unit :=
  modify (λ self, {| m_numberOfVariables := numberOfVariables;
                     m_evaluationCounter := m_evaluationCounter self;
                     m_features := m_features self |}).

(** [eval(p)]: const, but it counts the call in the mutable counter. *)
Definition eval (p : RealVector) : Method Sphere float :=
  modify (λ self, {| m_numberOfVariables := m_numberOfVariables self;
                     m_evaluationCounter := ((m_evaluationCounter self + 1) mod counter_values)%N;
                     m_features := m_features self |}) ;;;
  ret (blas.norm_sqr p).

(** The calls [eval(p)] for the points of a list, in order. *)
Fixpoint evals (points : list RealVector) (self : Sphere) : list (Exc float) * Sphere :=
  match points with
  | [] => ([], self)
  | p :: rest =>
      let r := eval p self in
      let rs := evals rest (snd r) in
      (fst r :: fst rs, snd rs)
  end.

(** The loop of [proposeStartingPoint]: the index [i] is an [unsigned int]
    of 32 bits, compared with the [std::size_t] size of [x].  The loop runs
    for at most [fuel] tests of its condition; there is no result when they
    do not suffice. *)
Fixpoint proposeStartingPoint_loop (fuel : nat) (i : N) (x : RealVector) (rng : Rng)
    : option (RealVector * Rng) :=
  match fuel with
  | 0 => None
  | S fuel' =>
      if (i <? N.of_nat (length x))%N
      then let r := uni 0%float 1%float rng in
           proposeStartingPoint_loop fuel' ((i + 1) mod 2 ^ 32)%N
             (<[N.to_nat i := fst r]> x) (snd r)
      else Some (x, rng)
  end.

(** [proposeStartingPoint(x)] *)
Definition proposeStartingPoint (fuel : nat) (self : Sphere) (x : RealVector) (rng : Rng)
    : option (RealVector * Rng) :=
  proposeStartingPoint_loop fuel 0%N (blas.resize x (N.to_nat (numberOfVariables self))) rng.

(** The next [n] doubles of the generator between 0 and 1, and the
    generator after them. *)
Fixpoint draws (n : nat) (rng : Rng) : RealVector * Rng :=
  match n with
  | 0 => ([], rng)
  | S n' =>
      let r := uni 0%float 1%float rng in
      let rs := draws n' (snd r) in
      (fst r :: fst rs, snd rs)
  end.

End Sphere.
End Sphere.

(** ** Concrete ensembles and networks *)

Module Examples.

(** An ensemble of two models, of weights 1 and 2, whose first weight is
    then set to 3. *)
Definition reweighted : MeanModel.MeanModel unit :=
  MeanModel.calls
    [MeanModel.AddModel tt 1%float; MeanModel.AddModel tt 2%float;
     MeanModel.SetWeight 0 3%float]
    MeanModel.ctor.

(** Every member answers 6 on the one pattern of the batch. *)
Definition six (model : unit) (patterns : unit) : RealMatrix := [[6%float]].

(** One input, one neuron that is also the output, no bias: the input
    weight 1.0 is parameter 0 and the self-recurrent weight 0.5 is
    parameter 1; the connection from the input is feedforward; the
    activation function is the identity. *)
Definition tiny : OnlineRNNet.RecurrentStructure := {|
  OnlineRNNet.numberOfUnits := 2;
  OnlineRNNet.numberOfNeurons := 1;
  OnlineRNNet.parameters := 2;
  OnlineRNNet.inputs := 1;
  OnlineRNNet.outputs := 1;
  OnlineRNNet.weight := λ k l, match l with 0 => 1%float | _ => 0.5%float end;
  OnlineRNNet.parameterOf := λ k l,
    match k, l with 0, 0 => Some 0 | 0, 1 => Some 1 | _, _ => None end;
  OnlineRNNet.recurrent := λ k l, match l with 0 => false | _ => true end;
  OnlineRNNet.neuron := λ x, x;
  OnlineRNNet.neuronDerivative := λ _, 1%float
|}.

(** The evaluator of [tiny] with gradients, and the one without. *)
Definition tiny_net : OnlineRNNet.OnlineRNNet := OnlineRNNet.ctor tiny true.
Definition tiny_net_plain : OnlineRNNet.OnlineRNNet := OnlineRNNet.ctor tiny false.

(** The state of [tiny] after the inputs 1.0 and 0.0. *)
Definition tiny_after_two : OnlineRNNet.InternalState := {|
  OnlineRNNet.activation := [0%float; 0.5%float];
  OnlineRNNet.lastActivation := [1%float; 1%float];
  OnlineRNNet.unitGradient := [[0.5%float]; [1%float]]
|}.

(** A chain without recurrence: the input feeds a hidden neuron with
    weight 2.0, parameter 0, and the hidden neuron feeds the output neuron
    with weight 3.0, parameter 1, both within the step; there is no other
    connection; the activation function is the identity. *)
Definition chain : OnlineRNNet.RecurrentStructure := {|
  OnlineRNNet.numberOfUnits := 3;
  OnlineRNNet.numberOfNeurons := 2;
  OnlineRNNet.parameters := 2;
  OnlineRNNet.inputs := 1;
  OnlineRNNet.outputs := 1;
  OnlineRNNet.weight := λ k l,
    match k, l with 0, 0 => 2%float | 1, 1 => 3%float | _, _ => 0%float end;
  OnlineRNNet.parameterOf := λ k l,
    match k, l with 0, 0 => Some 0 | 1, 1 => Some 1 | _, _ => None end;
  OnlineRNNet.recurrent := λ k l,
    match k, l with 0, 0 => false | 1, 1 => false | _, _ => true end;
  OnlineRNNet.neuron := λ x, x;
  OnlineRNNet.neuronDerivative := λ _, 1%float
|}.

Definition chain_net : OnlineRNNet.OnlineRNNet := OnlineRNNet.ctor chain true.

(** The input sequence 1.0, 0.0, 0.0 with a contraction after every step. *)
Definition impulse : list OnlineRNNet.TimeStep :=
  map (λ x, {| OnlineRNNet.pattern_of := [[x]];
               OnlineRNNet.coefficients_of := Some [[1%float]] |})
      [1%float; 0%float; 0%float].

(** An ensemble of two models, of weights 1 and 2. *)
Definition two_models : MeanModel.MeanModel unit :=
  MeanModel.calls [MeanModel.AddModel tt 1%float; MeanModel.AddModel tt 2%float]
    MeanModel.ctor.

(** Calls of every kind, one of them refused and one past the end. *)
Definition mixed_calls : list (MeanModel.Call unit) :=
  [MeanModel.AddModel tt 1%float; MeanModel.SetWeight 0 3%float;
   MeanModel.AddModel tt (-1)%float; MeanModel.SetWeight 5 1%float;
   MeanModel.ClearModels; MeanModel.AddModel tt 2%float].

(** Calls that add and clear only. *)
Definition adding_calls : list (MeanModel.Call unit) :=
  [MeanModel.AddModel tt 1%float; MeanModel.AddModel tt 2%float; MeanModel.ClearModels;
   MeanModel.AddModel tt 0.5%float; MeanModel.AddModel tt 0%float].

(** Classifiers that answer with fixed labels on a batch of two patterns,
    and an ensemble of three of them with equal weights. *)
Definition fixed_labels (model : list N) (patterns : unit) : list N := model.
Definition batch_of_two (patterns : unit) : nat := 2.
Definition three_voters : MeanModel.MeanModel (list N) :=
  MeanModel.calls
    [MeanModel.AddModel [1; 0]%N 1%float; MeanModel.AddModel [1; 2]%N 1%float;
     MeanModel.AddModel [0; 2]%N 1%float]
    MeanModel.ctor.
Definition one_voter : MeanModel.MeanModel (list N) :=
  MeanModel.calls [MeanModel.AddModel [3; 0]%N 0.5%float] MeanModel.ctor.

(** A generator that hands out 0.25 and 0.5 in turn and counts its draws. *)
Definition alternating (lower upper : float) (draws : nat) : float * nat :=
  (if Nat.even draws then 0.25%float else 0.5%float, S draws).

(** Spheres of 3 and of 2^32 variables; the counter has 64 bits. *)
Definition sphere3 : Sphere.Sphere :=
  {| Sphere.m_numberOfVariables := 3; Sphere.m_evaluationCounter := 0;
     Sphere.m_features := 0 |}.
Definition sphere_huge : Sphere.Sphere :=
  {| Sphere.m_numberOfVariables := 2 ^ 32; Sphere.m_evaluationCounter := 0;
     Sphere.m_features := 0 |}.

End Examples.

(** * Properties *)

(** Unfolds the steps of a member function. *)
Ltac method_steps :=
  unfold bind, modify, get, ret, throw, SHARK_RUNTIME_CHECK, blas.at_,
    blas.assign_subrange; cbn.

(** ** Doubles *)

Section Doubles.

(** A double that is at most zero is not greater than zero. *)
Lemma leb_zero_not_positive (x : float) :
  (x <=? 0)%float = true → (0 <? x)%float = false.
Proof.
  rewrite FloatAxioms.leb_spec, FloatAxioms.ltb_spec.
  change (Prim2SF 0%float) with (S754_zero false).
  unfold SFleb, SFltb.
  destruct (Prim2SF x) as [s | s | | s m e]; simpl; try destruct s; congruence.
Qed.

End Doubles.

(** ** Sums accumulated in index order *)

Section Sums.

Lemma foldl_ext_elem {A B} (f g : A → B → A) (l : list B) (a : A) :
  (∀ a x, x ∈ l → f a x = g a x) → foldl f a l = foldl g a l.
Proof.
  revert a. induction l as [|x l IH]; intros a Hfg; [done|].
  cbn. rewrite (Hfg a x) by left. apply IH.
  intros a' y Hy. apply Hfg. now right.
Qed.

Lemma sum_over_ext (n : nat) (F G : nat → float) :
  (∀ i, i < n → F i = G i) → blas.sum_over n F = blas.sum_over n G.
Proof.
  intros HFG. unfold blas.sum_over. apply foldl_ext_elem.
  intros a i [_ Hi]%elem_of_seq. now rewrite HFG by lia.
Qed.

Lemma get_lookup (v : RealVector) (i : nat) (x : float) :
  v !! i = Some x → blas.get v i = x.
Proof. unfold blas.get. now intros ->. Qed.

Lemma inner_prod_from (u v : RealVector) (n j : nat) (acc : float) :
  j + n = length u → length u = length v →
  foldl PrimFloat.add acc (zip_with PrimFloat.mul (drop j u) (drop j v)) =
  foldl (λ acc i, acc + blas.get u i * blas.get v i)%float acc (seq j n).
Proof.
  revert j acc. induction n as [|n IH]; intros j acc Hj Huv.
  - rewrite drop_ge by lia. done.
  - destruct (lookup_lt_is_Some_2 u j) as [x Hx]; [lia|].
    destruct (lookup_lt_is_Some_2 v j) as [y Hy]; [lia|].
    rewrite (drop_S u x j Hx), (drop_S v y j Hy). cbn.
    rewrite IH by lia.
    now rewrite (get_lookup u j x Hx), (get_lookup v j y Hy).
Qed.

Lemma inner_prod_sum_over (u v : RealVector) :
  length u = length v →
  blas.inner_prod u v = blas.sum_over (length u) (λ i, blas.get u i * blas.get v i)%float.
Proof.
  intros Huv. unfold blas.inner_prod, blas.sum_over.
  now rewrite <-(inner_prod_from u v (length u) 0) by done.
Qed.

End Sums.

(** ** MeanModel *)

Module MeanModelProofs.
Import MeanModel.

Section Ensemble.

Context {ModelType BatchInputType : Type}.
Implicit Types (self : MeanModel ModelType) (model : ModelType) (weight : float).

Lemma sum_push_back (w : RealVector) (x : float) :
  blas.sum (w ++ [x]) = (blas.sum w + x)%float.
Proof. unfold blas.sum. now rewrite foldl_app. Qed.

(** A new ensemble stores the sum of no weights, and a cleared one the sum
    of zeros. *)
Lemma ctor_consistent : weightSum_consistent (@ctor ModelType).
Proof. reflexivity. Qed.

Lemma sum_clear (w : RealVector) : blas.sum (blas.clear w) = 0%float.
Proof.
  unfold blas.sum, blas.clear.
  induction (length w) as [|n IH]; [done|]. cbn. exact IH.
Qed.

Lemma clearModels_consistent self : weightSum_consistent (snd (clearModels self)).
Proof. exact (eq_sym (sum_clear (m_weight self))). Qed.

Lemma addModel_accepts self model weight :
  (0 <? weight)%float = true →
  addModel model weight self =
    (Ok tt, {| m_models := m_models self ++ [model];
               m_weight := m_weight self ++ [weight];
               m_weightSum := (m_weightSum self + weight)%float |}).
Proof. intros Hpos. unfold addModel. method_steps. now rewrite Hpos. Qed.

Lemma addModel_refuses self model weight :
  (0 <? weight)%float = false →
  addModel model weight self = (Throw (SharkException "Weights must be positive"), self).
Proof. intros Hneg. unfold addModel. method_steps. now rewrite Hneg. Qed.

(** [addModel] keeps the stored total equal to the sum of the weights,
    whether it accepts the weight or throws. *)
Lemma addModel_consistent self model weight :
  weightSum_consistent self → weightSum_consistent (snd (addModel model weight self)).
Proof.
  unfold weightSum_consistent. intros Hsum.
  destruct (0 <? weight)%float eqn:Hpos.
  - rewrite addModel_accepts by done. cbn. now rewrite sum_push_back, Hsum.
  - now rewrite addModel_refuses.
Qed.

(** X2: every sequence of [addModel] and [clearModels] calls keeps the
    stored total equal to the sum of the weights. *)
Lemma calls_consistent (cs : list (Call ModelType)) self :
  Forall not_setWeight cs →
  weightSum_consistent self → weightSum_consistent (calls cs self).
Proof.
  intros Hcs. revert self.
  induction Hcs as [|c cs Hc _ IH]; intros self Hself; [done|].
  apply (IH (snd (call c self))).
  destruct c as [model weight| |]; cbn [call].
  - now apply addModel_consistent.
  - destruct Hc.
  - apply clearModels_consistent.
Qed.

(** What [setWeight] stores as the total, for an index in range. *)
Lemma setWeight_stores self i newWeight old :
  m_weight self !! i = Some old →
  setWeight i newWeight self =
    (Ok tt, {| m_models := m_models self;
               m_weight := <[i := newWeight]> (m_weight self);
               m_weightSum := (newWeight - old)%float |}).
Proof. intros Hi. unfold setWeight. method_steps. now rewrite Hi. Qed.

(** C10: [addModel] throws for every weight that is at most zero and then
    leaves the models, the weights and the total as they were; for every
    weight greater than zero it appends the model and the weight and adds
    the weight to the total. *)
Theorem addModel_checks_weight self model weight :
  ((weight <=? 0)%float = true →
     addModel model weight self =
       (Throw (SharkException "Weights must be positive"), self)) ∧
  ((0 <? weight)%float = true →
     ∃ self', addModel model weight self = (Ok tt, self') ∧
       m_models self' = m_models self ++ [model] ∧
       m_weight self' = m_weight self ++ [weight] ∧
       m_weightSum self' = (m_weightSum self + weight)%float).
Proof.
  split.
  - intros Hle. apply addModel_refuses. now apply leb_zero_not_positive.
  - intros Hpos. eexists. split; [now apply addModel_accepts | done].
Qed.

End Ensemble.

(** [addModel] at the weights -1, 0 and 2 on a new ensemble. *)
Lemma addModel_checks_weight_witness :
  addModel tt (-1)%float ctor = (Throw (SharkException "Weights must be positive"), ctor) ∧
  addModel tt 0%float ctor = (Throw (SharkException "Weights must be positive"), ctor) ∧
  (∃ self', addModel tt 2%float ctor = (Ok tt, self') ∧
     m_models self' = [tt] ∧ m_weight self' = [2%float] ∧
     m_weightSum self' = (0 + 2)%float).
Proof.
  split; [| split].
  - apply (proj1 (addModel_checks_weight ctor tt (-1)%float)). reflexivity.
  - apply (proj1 (addModel_checks_weight ctor tt 0%float)). reflexivity.
  - apply (proj2 (addModel_checks_weight ctor tt 2%float)). reflexivity.
Defined.

(** C9: after [addModel(m, 1.0)], [addModel(m, 2.0)] and
    [setWeight(0, 3.0)] the weights are 3 and 2, whose sum is 5, while the
    stored total is 3 - 1 = 2: [setWeight] assigns the difference of the
    new and the old weight to the total instead of adding it.  The
    averaging [doEval] then divides the weighted sum 6*3 + 2*6 = 30 by 2. *)
Theorem setWeight_breaks_weightSum :
  m_weight Examples.reweighted = [3%float; 2%float] ∧
  m_weightSum Examples.reweighted = 2%float ∧
  blas.sum (m_weight Examples.reweighted) = 5%float ∧
  ¬ weightSum_consistent Examples.reweighted ∧
  doEval Examples.six Examples.reweighted tt = Ok [[15%float]].
Proof.
  repeat split; try (vm_compute; reflexivity).
  apply (bool_decide_eq_false_1 _). vm_compute. reflexivity.
Qed.

End MeanModelProofs.

(** ** OnlineRNNet: the state and the member functions of the header *)

Module OnlineRNNetProofs.
Import OnlineRNNet.

Section States.

Implicit Types (self : OnlineRNNet) (structure : RecurrentStructure)
  (s : InternalState) (h : Heap).

(** [createState] hands out the address of a new object and leaves every
    other object alone. *)
Lemma createState_fresh self h : h !! (createState self h).1 = None.
Proof. cbn. apply not_elem_of_dom, is_fresh. Qed.

Lemma createState_lookup self h :
  (createState self h).2 !! (createState self h).1 =
    Some (InternalState_ctor (mpe_structure self)).
Proof. cbn. apply lookup_insert_eq. Qed.

Lemma createState_other self h p :
  p ≠ (createState self h).1 → (createState self h).2 !! p = h !! p.
Proof. intros Hp. cbn. now apply lookup_insert_ne. Qed.

(** The state does not depend on the gradient flag of the evaluator. *)
Lemma createState_ignores_computeGradient structure (flag : bool) h :
  createState (ctor structure flag) h = createState (ctor structure true) h.
Proof. reflexivity. Qed.

Lemma stored_matrix (rows columns : nat) (x : float) :
  blas.stored (blas.matrix rows columns x) = rows * columns.
Proof.
  unfold blas.stored, blas.matrix.
  induction rows as [|rows IH]; cbn; [done|].
  rewrite IH, length_replicate. done.
Qed.

(** The gradient matrix of a new state has an entry for every parameter
    and neuron, for either value of the flag. *)
Lemma createState_stored self h s :
  (createState self h).2 !! (createState self h).1 = Some s →
  blas.stored (unitGradient s) = numberOfParameters self * numberOfNeurons (mpe_structure self).
Proof.
  rewrite createState_lookup. intros [= <-]. apply stored_matrix.
Qed.

(** C3: for the evaluator of [tiny] constructed with gradient computation
    disabled, the state produced by [createState] holds a gradient matrix
    of 2 x 1 entries: the constructor of the state allocates the matrix
    from the topology alone and never looks at the flag. *)
Theorem createState_allocates_gradient_when_disabled :
  let self := ctor Examples.tiny false in
  m_computeGradient self = false ∧
  ∃ s, (createState self ∅).2 !! (createState self ∅).1 = Some s ∧
       unitGradient s = [[0%float]; [0%float]] ∧
       blas.stored (unitGradient s) = 2.
Proof.
  cbv zeta. split; [done|].
  eexists. split; [apply createState_lookup|]. split; reflexivity.
Qed.

(** C7: the state produced by [createState] has an activation and a
    previous activation of [numberOfUnits] entries, all zero, and a gradient
    matrix of [numberOfParameters] rows of [numberOfNeurons] entries, all
    zero. *)
Theorem createState_zero self h :
  ∃ s, (createState self h).2 !! (createState self h).1 = Some s ∧
    length (activation s) = numberOfUnits (mpe_structure self) ∧
    Forall (λ x, x = 0%float) (activation s) ∧
    length (lastActivation s) = numberOfUnits (mpe_structure self) ∧
    Forall (λ x, x = 0%float) (lastActivation s) ∧
    blas.size1 (unitGradient s) = numberOfParameters self ∧
    Forall (λ row, length row = numberOfNeurons (mpe_structure self) ∧
                   Forall (λ x, x = 0%float) row) (unitGradient s).
Proof.
  eexists. split; [apply createState_lookup|]. cbn.
  unfold blas.vector, blas.matrix, blas.size1.
  rewrite !length_replicate.
  repeat split; try apply Forall_replicate; try done.
  split; [apply length_replicate | now apply Forall_replicate].
Qed.

(** A new state has the shape of its topology. *)
Lemma ctor_state_shape structure : state_shape structure (InternalState_ctor structure).
Proof.
  unfold state_shape, InternalState_ctor, blas.vector, blas.matrix. cbn.
  rewrite !length_replicate. repeat split.
  apply Forall_replicate, length_replicate.
Qed.

(** C6: the overload of [eval] without a state object throws for every
    pattern, whatever the network, and leaves the caller's output as it
    was. *)
Theorem eval_without_state_throws self (pattern output : RealMatrix) :
  eval_without_state self pattern output =
    (Throw (SharkException "[OnlineRNNet::eval] Eval can not be called without state object"),
     output).
Proof. reflexivity. Qed.

(** Whatever the state and the values, and whether the call returns or
    throws, [setOutputActivation] leaves the previous activation and the
    gradient matrix as they were. *)
Lemma setOutputActivation_keeps_gradient self (values : RealVector) s :
  lastActivation (snd (setOutputActivation self values s)) = lastActivation s ∧
  unitGradient (snd (setOutputActivation self values s)) = unitGradient s.
Proof.
  unfold setOutputActivation. method_steps.
  repeat case_decide; done.
Qed.

(** [setOutputActivation] on a state of the right length, step by step. *)
Lemma setOutputActivation_assigns self (values : RealVector) s :
  outputSize self ≤ numberOfUnits (mpe_structure self) →
  length (activation s) = numberOfUnits (mpe_structure self) →
  length values = outputSize self →
  setOutputActivation self values s =
    (Ok tt,
     {| activation :=
          take (numberOfUnits (mpe_structure self) - outputSize self) (activation s) ++ values;
        lastActivation := lastActivation s;
        unitGradient := unitGradient s |}).
Proof.
  intros Hle Hlen Hvalues.
  unfold setOutputActivation, bind, modify, get, set_activation, blas.resize. cbn.
  rewrite resize_all_alt by done.
  rewrite decide_True by done.
  unfold blas.assign_subrange.
  rewrite decide_True by lia.
  cbn. rewrite drop_ge by lia. now rewrite app_nil_r.
Qed.

(** C5: on a state of the topology and values of output-size length,
    [setOutputActivation] returns, the previous activation and the gradient
    matrix are as before, the activation keeps its length and every entry
    before the output slots, and the output slots hold the values. *)
Theorem setOutputActivation_frame self (values : RealVector) s :
  outputSize self ≤ numberOfUnits (mpe_structure self) →
  length (activation s) = numberOfUnits (mpe_structure self) →
  length values = outputSize self →
  ∃ s', setOutputActivation self values s = (Ok tt, s') ∧
    lastActivation s' = lastActivation s ∧
    unitGradient s' = unitGradient s ∧
    length (activation s') = length (activation s) ∧
    (∀ i, i < numberOfUnits (mpe_structure self) - outputSize self →
          activation s' !! i = activation s !! i) ∧
    (∀ j, j < outputSize self →
          activation s' !! (numberOfUnits (mpe_structure self) - outputSize self + j)
            = values !! j).
Proof.
  intros Hle Hlen Hvalues.
  eexists. split; [now apply setOutputActivation_assigns|]. cbn.
  repeat split.
  - rewrite length_app, length_take_le by lia. lia.
  - intros i Hi. rewrite lookup_app_l by (rewrite length_take_le; lia).
    now apply lookup_take_lt.
  - intros j Hj. rewrite lookup_app_r by (rewrite length_take_le; lia).
    rewrite length_take_le by lia. f_equal. lia.
Qed.

End States.

(** Teacher forcing on the state of [tiny] after two steps. *)
Lemma setOutputActivation_frame_witness :
  ∃ s', setOutputActivation (ctor Examples.tiny true) [7%float] Examples.tiny_after_two
          = (Ok tt, s') ∧
    lastActivation s' = lastActivation Examples.tiny_after_two ∧
    unitGradient s' = unitGradient Examples.tiny_after_two ∧
    length (activation s') = length (activation Examples.tiny_after_two) ∧
    (∀ i, i < 2 - 1 → activation s' !! i = activation Examples.tiny_after_two !! i) ∧
    (∀ j, j < 1 → activation s' !! (2 - 1 + j) = [7%float] !! j).
Proof.
  apply (setOutputActivation_frame (ctor Examples.tiny true) [7%float] Examples.tiny_after_two).
  - cbn. lia.
  - reflexivity.
  - reflexivity.
Defined.

End OnlineRNNetProofs.

(** ** OnlineRNNet: the step, the recurrence and the contraction *)

Module RealTimeLearning.
Import OnlineRNNet.

Section Neurons.

(** The neurons of one step are updated for a fixed evaluator, with the
    tensor of the previous step at hand. *)
Variables (self : OnlineRNNet) (prior : RealMatrix).

Implicit Types (s : InternalState) (k p u : nat) (ks : list nat).

Lemma updateNeuron_activation_other s k u :
  u ≠ neuronUnit (mpe_structure self) k →
  activation (updateNeuron self prior s k) !! u = activation s !! u.
Proof. intros Hu. cbn. now rewrite list_lookup_insert_ne. Qed.

Lemma updateNeuron_activation_at s k :
  neuronUnit (mpe_structure self) k < length (activation s) →
  activation (updateNeuron self prior s k) !! neuronUnit (mpe_structure self) k
    = Some (neuron (mpe_structure self) (preActivation (mpe_structure self) s k)).
Proof. intros Hk. cbn. now rewrite list_lookup_insert_eq. Qed.



Lemma updateNeuron_shape s k :
  state_shape (mpe_structure self) s →
  state_shape (mpe_structure self) (updateNeuron self prior s k).
Proof.
  intros (Hact & Hlast & Hrows & Hcols). unfold state_shape. cbn.
  rewrite length_insert. repeat split; [done|done| |].
  - destruct (m_computeGradient self); [|done].
    unfold updateSensitivity. now rewrite length_imap.
  - destruct (m_computeGradient self); [|done].
    apply Forall_lookup. intros p row Hrow.
    unfold updateSensitivity in Hrow.
    apply list_lookup_imap_Some in Hrow as (old & Hold & ->).
    rewrite length_insert. exact (proj1 (Forall_lookup _ _) Hcols p old Hold).
Qed.

(** The same over the neurons [ks], updated one after the other. *)
Lemma updates_lastActivation s ks :
  lastActivation (foldl (updateNeuron self prior) s ks) = lastActivation s.
Proof. revert s. induction ks as [|k ks IH]; intros s; [done|]. cbn. now rewrite IH. Qed.

Lemma updates_shape s ks :
  state_shape (mpe_structure self) s →
  state_shape (mpe_structure self) (foldl (updateNeuron self prior) s ks).
Proof.
  revert s. induction ks as [|k ks IH]; intros s Hshape; [done|].
  cbn. now apply IH, updateNeuron_shape.
Qed.

Lemma updates_activation_length s ks :
  length (activation (foldl (updateNeuron self prior) s ks)) = length (activation s).
Proof.
  revert s. induction ks as [|k ks IH]; intros s; [done|].
  cbn. rewrite IH. cbn. now rewrite length_insert.
Qed.

Lemma updates_activation_other s ks u :
  Forall (λ k, u ≠ neuronUnit (mpe_structure self) k) ks →
  activation (foldl (updateNeuron self prior) s ks) !! u = activation s !! u.
Proof.
  intros Hks. revert s. induction Hks as [|k ks Hk _ IH]; intros s; [done|].
  cbn. rewrite IH. now apply updateNeuron_activation_other.
Qed.


(** The neurons in index order: those before [k], then [k], then those
    after it. *)
Lemma neurons_split (n k : nat) :
  k < n → seq 0 n = seq 0 k ++ k :: seq (S k) (n - S k).
Proof.
  intros Hk. replace n with (k + S (n - S k)) at 1 by lia.
  now rewrite seq_app.
Qed.

End Neurons.

Section Step.

Implicit Types (self : OnlineRNNet) (structure : RecurrentStructure)
  (s : InternalState) (h : Heap).

Lemma get2_row (m : RealMatrix) (p : nat) (row : RealVector) (k : nat) :
  m !! p = Some row → blas.get2 m p k = blas.get row k.
Proof. unfold blas.get2, blas.entry, blas.get. intros ->. done. Qed.

Lemma get_drop (v : RealVector) (n i : nat) : blas.get (drop n v) i = blas.get v (n + i).
Proof. unfold blas.get. now rewrite lookup_drop. Qed.

(** On an input and a state of the right shape [eval] returns, and ends
    in the state [stepped]. *)
Lemma eval_returns self (input : RealVector) s :
  structure_layout (mpe_structure self) →
  length (activation s) = numberOfUnits (mpe_structure self) →
  length input = inputSize self →
  eval self [input] s =
    (Ok [drop (numberOfUnits (mpe_structure self) - outputSize self)
              (activation (stepped self input s))],
     stepped self input s).
Proof.
  intros [Hin Hout] Hlen Hinput. unfold stepped, fed.
  unfold eval, single_row, bind, modify, get, ret, set_activation, set_lastActivation.
  rewrite decide_True by done. cbn.
  unfold blas.assign_subrange.
  unfold inputSize in *.
  rewrite decide_True by lia. cbn.
  now rewrite take_0, app_nil_l.
Qed.

(** The shape of the state in which the neurons start. *)
Lemma fed_shape self (input : RealVector) s :
  structure_layout (mpe_structure self) →
  state_shape (mpe_structure self) s →
  length input = inputSize self →
  state_shape (mpe_structure self) (fed self input s).
Proof.
  intros [Hin Hout] (Hact & Hlast & Hrows & Hcols) Hinput.
  unfold state_shape, fed, inputSize in *. cbn.
  rewrite length_app, length_drop. repeat split; [lia|done..].
Qed.

(** Two states with the same previous activation and the same entries
    before neuron [k] give every connection into [k] the same value, when
    the feedforward connections come from units before [k]. *)
Lemma source_agree structure s1 s2 (k l : nat) :
  lastActivation s1 = lastActivation s2 →
  (∀ i, i < neuronUnit structure k → activation s1 !! i = activation s2 !! i) →
  (recurrent structure k l = false → l < neuronUnit structure k) →
  source structure s1 k l = source structure s2 k l.
Proof.
  intros Hlast Hact Horder. unfold source.
  destruct (recurrent structure k l).
  - now rewrite Hlast.
  - unfold blas.get. now rewrite Hact by auto.
Qed.

Lemma preActivation_agree structure s1 s2 (k : nat) :
  (∀ l, l < numberOfUnits structure → source structure s1 k l = source structure s2 k l) →
  preActivation structure s1 k = preActivation structure s2 k.
Proof.
  intros Hsrc. unfold preActivation. f_equal.
  apply list_fmap_ext. intros i l [-> Hi]%lookup_seq. now apply Hsrc.
Qed.

(** The feedforward connections into neuron [k] come from units before
    it. *)
Lemma feedforward_before structure (k l : nat) :
  feedforward_ordered structure →
  k < numberOfNeurons structure →
  l < numberOfUnits structure →
  recurrent structure k l = false → l < neuronUnit structure k.
Proof.
  intros Hordered Hk Hl.
  pose proof (proj1 (Forall_lookup _ _) Hordered k k (lookup_seq_lt 0 _ k Hk)) as Hrow.
  exact (proj1 (Forall_lookup _ _) Hrow l l (lookup_seq_lt 0 _ l Hl)).
Qed.




(** The pre-activation by index. *)
Lemma preActivation_sum_over structure s (k : nat) :
  preActivation structure s k =
    blas.sum_over (numberOfUnits structure)
      (λ l, weight structure k l * source structure s k l)%float.
Proof.
  unfold preActivation.
  rewrite inner_prod_sum_over by (now rewrite !length_fmap).
  rewrite length_fmap, length_seq. apply sum_over_ext. intros l Hl.
  f_equal; apply get_lookup; now rewrite list_lookup_fmap, lookup_seq_lt by done.
Qed.

Lemma stepped_reached self (input : RealVector) s (k : nat) :
  k < numberOfNeurons (mpe_structure self) →
  stepped self input s =
    foldl (updateNeuron self (unitGradient s))
          (updateNeuron self (unitGradient s) (reached self input s k) k)
          (seq (S k) (numberOfNeurons (mpe_structure self) - S k)).
Proof.
  intros Hk. unfold stepped, reached.
  rewrite (neurons_split _ k Hk) at 1. now rewrite foldl_app.
Qed.

Lemma later_neurons structure (k n : nat) (u : nat) :
  u < neuronUnit structure k →
  Forall (λ j, u ≠ neuronUnit structure j) (seq k n).
Proof.
  intros Hu. apply Forall_forall. intros j [Hj _]%elem_of_seq.
  unfold neuronUnit in *. lia.
Qed.

(** A unit before neuron [k] holds at the end of the step what it held
    when [k] read it. *)
Lemma stepped_activation_before self (input : RealVector) s (k u : nat) :
  k < numberOfNeurons (mpe_structure self) →
  u < neuronUnit (mpe_structure self) k →
  activation (stepped self input s) !! u = activation (reached self input s k) !! u.
Proof.
  intros Hk Hu. unfold stepped, reached.
  rewrite (neurons_split _ k Hk) at 1. rewrite foldl_app.
  now apply updates_activation_other, (later_neurons _ k (S _)).
Qed.

Lemma stepped_source self (input : RealVector) s (k l : nat) :
  feedforward_ordered (mpe_structure self) →
  k < numberOfNeurons (mpe_structure self) →
  l < numberOfUnits (mpe_structure self) →
  source (mpe_structure self) (stepped self input s) k l
    = source (mpe_structure self) (reached self input s k) k l.
Proof.
  intros Hordered Hk Hl. apply source_agree.
  - unfold stepped, reached. now rewrite !updates_lastActivation.
  - intros i Hi. now apply stepped_activation_before.
  - now apply feedforward_before.
Qed.

Lemma stepped_preActivation self (input : RealVector) s (k : nat) :
  feedforward_ordered (mpe_structure self) →
  k < numberOfNeurons (mpe_structure self) →
  preActivation (mpe_structure self) (stepped self input s) k
    = preActivation (mpe_structure self) (reached self input s k) k.
Proof. intros Hordered Hk. apply preActivation_agree. intros l Hl. now apply stepped_source. Qed.


(** What the step writes, slot by slot. *)
Lemma eval_forward self (input : RealVector) s :
  structure_layout (mpe_structure self) →
  feedforward_ordered (mpe_structure self) →
  length (activation s) = numberOfUnits (mpe_structure self) →
  length input = inputSize self →
  ∃ s', eval self [input] s =
          (Ok [drop (numberOfUnits (mpe_structure self) - outputSize self) (activation s')],
           s') ∧
    lastActivation s' = activation s ∧
    length (activation s') = numberOfUnits (mpe_structure self) ∧
    (∀ i, i < inputSize self → activation s' !! i = input !! i) ∧
    (∀ i, inputSize self ≤ i →
          i < numberOfUnits (mpe_structure self) - numberOfNeurons (mpe_structure self) →
          activation s' !! i = activation s !! i) ∧
    (∀ k, k < numberOfNeurons (mpe_structure self) →
          activation s' !! neuronUnit (mpe_structure self) k =
            Some (neuron (mpe_structure self) (preActivation (mpe_structure self) s' k))).
Proof.
  intros Hlayout Hordered Hlen Hinput.
  exists (stepped self input s). split; [now apply eval_returns|].
  destruct Hlayout as [Hin Hout]. unfold inputSize in *.
  assert (length (activation (fed self input s)) = numberOfUnits (mpe_structure self)) as Hfed.
  { cbn. unfold inputSize. rewrite length_app, length_drop. lia. }
  assert (∀ i, i < numberOfUnits (mpe_structure self) - numberOfNeurons (mpe_structure self) →
               activation (stepped self input s) !! i = activation (fed self input s) !! i)
    as Hbefore.
  { intros i Hi. apply updates_activation_other, (later_neurons _ 0).
    unfold neuronUnit. lia. }
  split; [|split; [|split; [|split]]].
  - unfold stepped. now rewrite updates_lastActivation.
  - unfold stepped. now rewrite updates_activation_length.
  - intros i Hi. rewrite Hbefore by lia. cbn. now rewrite lookup_app_l by lia.
  - intros i Hi Hi'. rewrite Hbefore by lia. cbn. unfold inputSize.
    rewrite lookup_app_r, lookup_drop by lia. f_equal. lia.
  - intros k Hk. rewrite stepped_preActivation by done.
    rewrite (stepped_reached self input s k Hk).
    rewrite updates_activation_other.
    + apply updateNeuron_activation_at. unfold reached.
      rewrite updates_activation_length, Hfed. unfold neuronUnit. lia.
    + apply Forall_forall. intros j [Hj _]%elem_of_seq. unfold neuronUnit. lia.
Qed.

(** [eval] keeps the shape of the state, whether it returns or throws. *)
Lemma eval_keeps_shape self (pattern : RealMatrix) s :
  structure_layout (mpe_structure self) →
  state_shape (mpe_structure self) s →
  state_shape (mpe_structure self) (snd (eval self pattern s)).
Proof.
  intros Hlayout Hshape.
  destruct pattern as [|input [|]]; [done| |done].
  destruct (decide (length input = inputSize self)) as [Hinput|Hinput].
  2:{ unfold eval, bind, single_row. now rewrite decide_False by done. }
  rewrite eval_returns by (done || apply Hshape).
  apply updates_shape. now apply fed_shape.
Qed.



(** C2: with gradient tracking active, on a state of the shape of the
    topology and coefficients of output-size length,
    [weightedParameterDerivative] returns a vector of [numberOfParameters]
    entries whose entry [p] is the sum over the output neurons [k] of
    coefficients[k] times the stored sensitivity of [p] and that neuron. *)
Theorem weightedParameterDerivative_contracts self (pattern : RealMatrix) (c : RealVector) s :
  m_computeGradient self = true →
  structure_layout (mpe_structure self) →
  state_shape (mpe_structure self) s →
  length c = outputSize self →
  ∃ gradient,
    weightedParameterDerivative self pattern [c] s = Ok gradient ∧
    length gradient = numberOfParameters self ∧
    ∀ p, p < numberOfParameters self →
      gradient !! p =
        Some (blas.sum_over (outputSize self)
                (λ k, blas.get c k *
                      blas.get2 (unitGradient s) p
                        (numberOfNeurons (mpe_structure self) - outputSize self + k))%float).
Proof.
  intros Hflag [_ Hout] (_ & _ & Hrows & Hcols) Hc.
  unfold weightedParameterDerivative. rewrite Hflag, decide_True by done.
  eexists. split; [done|]. split.
  - now rewrite length_fmap.
  - intros p Hp. unfold numberOfParameters in Hp.
    destruct (lookup_lt_is_Some_2 (unitGradient s) p) as [row Hrow]; [lia|].
    rewrite list_lookup_fmap, Hrow. cbn. f_equal.
    assert (length row = numberOfNeurons (mpe_structure self)) as Hlen
      by exact (proj1 (Forall_lookup _ _) Hcols p row Hrow).
    unfold outputSize in *.
    rewrite inner_prod_sum_over by (rewrite length_drop; lia).
    rewrite Hc. apply sum_over_ext. intros k Hk.
    now rewrite get_drop, (get2_row _ _ _ _ Hrow).
Qed.

(** C4: without gradient tracking [weightedParameterDerivative] throws the
    configuration error, for every state and all coefficients: it returns
    no vector.  With gradient tracking it never throws that error, so the
    failure is told apart from every other outcome of the call. *)
Theorem weightedParameterDerivative_needs_gradient self (pattern coefficients : RealMatrix) s :
  (m_computeGradient self = false →
     weightedParameterDerivative self pattern coefficients s = Throw ConfigurationError) ∧
  (m_computeGradient self = true →
     weightedParameterDerivative self pattern coefficients s ≠ Throw ConfigurationError).
Proof.
  unfold weightedParameterDerivative. split; intros ->; [done|].
  destruct coefficients as [|c [|]]; try done. now case_decide.
Qed.

End Step.

(** The impulse 1.0, 0.0, 0.0 into [tiny]: the activations are 1.0, 0.5 and
    0.25, and the gradients with respect to the input weight and the
    recurrent weight are (1, 0), (0.5, 1) and (0.25, 1). *)
Example impulse_response :
  fst (run Examples.tiny_net Examples.impulse (InternalState_ctor Examples.tiny)) =
    [(Ok [[1%float]], Some (Ok [1%float; 0%float]));
     (Ok [[0.5%float]], Some (Ok [0.5%float; 1%float]));
     (Ok [[0.25%float]], Some (Ok [0.25%float; 1%float]))].
Proof. vm_compute. reflexivity. Qed.

Example tiny_after_two_reached :
  snd (run Examples.tiny_net (take 2 Examples.impulse) (InternalState_ctor Examples.tiny))
    = Examples.tiny_after_two.
Proof. vm_compute. reflexivity. Qed.

(** The input 5.0 into [chain]: the hidden neuron answers 10.0 and the
    output neuron 30.0 within the step, and the output's sensitivities to
    the two weights are 15.0 and 10.0. *)
Example chain_response :
  eval Examples.chain_net [[5%float]] (InternalState_ctor Examples.chain) =
    (Ok [[30%float]],
     {| activation := [5%float; 10%float; 30%float];
        lastActivation := [0%float; 0%float; 0%float];
        unitGradient := [[5%float; 15%float]; [0%float; 10%float]] |}).
Proof. vm_compute. reflexivity. Qed.



(** The contraction after the second step of the impulse into [tiny]. *)
Lemma weightedParameterDerivative_contracts_witness :
  ∃ gradient,
    weightedParameterDerivative Examples.tiny_net [[0%float]] [[2%float]]
      Examples.tiny_after_two = Ok gradient ∧
    length gradient = 2 ∧
    ∀ p, p < 2 →
      gradient !! p =
        Some (blas.sum_over 1
                (λ k, blas.get [2%float] k *
                      blas.get2 (unitGradient Examples.tiny_after_two) p (1 - 1 + k))%float).
Proof.
  apply (weightedParameterDerivative_contracts Examples.tiny_net [[0%float]] [2%float]
           Examples.tiny_after_two).
  - reflexivity.
  - apply (bool_decide_unpack _). vm_compute. reflexivity.
  - apply (bool_decide_unpack _). vm_compute. reflexivity.
  - reflexivity.
Defined.

(** The contraction asked of the evaluator of [tiny] without gradients. *)
Lemma weightedParameterDerivative_needs_gradient_witness :
  weightedParameterDerivative Examples.tiny_net_plain [[1%float]] [[1%float]]
    (InternalState_ctor Examples.tiny) = Throw ConfigurationError.
Proof.
  apply (proj1 (weightedParameterDerivative_needs_gradient Examples.tiny_net_plain
                  [[1%float]] [[1%float]] (InternalState_ctor Examples.tiny))).
  reflexivity.
Defined.

End RealTimeLearning.

(** ** More on doubles and on [arg_max] *)

Section MoreDoubles.

(** A double greater than zero is not less than zero, and adding it to
    zero gives it back. *)
Lemma positive_not_below_zero (w : float) : (0 <? w)%float = true → (w <? 0)%float = false.
Proof.
  rewrite !FloatAxioms.ltb_spec.
  change (Prim2SF 0%float) with (S754_zero false).
  unfold SFltb.
  destruct (Prim2SF w) as [s | s | | s m e]; simpl; try destruct s; congruence.
Qed.

Lemma zero_plus_positive (w : float) : (0 <? w)%float = true → (0 + w)%float = w.
Proof.
  intros Hw. apply FloatAxioms.Prim2SF_inj.
  rewrite FloatAxioms.add_spec.
  rewrite FloatAxioms.ltb_spec in Hw. revert Hw.
  change (Prim2SF 0%float) with (S754_zero false).
  unfold SFltb, FloatAxioms.SF64add.
  destruct (Prim2SF w) as [s | s | | s m e]; simpl; try destruct s; congruence.
Qed.

(** A double greater than zero is at least zero. *)
Lemma positive_at_least_zero (w : float) : (0 <? w)%float = true → (0 <=? w)%float = true.
Proof.
  rewrite FloatAxioms.ltb_spec, FloatAxioms.leb_spec.
  change (Prim2SF 0%float) with (S754_zero false).
  unfold SFltb, SFleb.
  destruct (Prim2SF w) as [s | s | | s m e]; simpl; try destruct s; congruence.
Qed.

End MoreDoubles.

Section ArgMax.

Lemma arg_max_from_bound (best : nat) (largest : float) (i : nat) (v : RealVector) :
  best < i → blas.arg_max_from best largest i v < i + length v.
Proof.
  revert best largest i. induction v as [|x v IH]; intros best largest i Hbest; cbn; [lia|].
  destruct (largest <? x)%float.
  - specialize (IH i x (S i)). lia.
  - specialize (IH best largest (S i)). lia.
Qed.

(** [arg_max] answers an index of the vector. *)
Lemma arg_max_bound (v : RealVector) : 0 < length v → blas.arg_max v < length v.
Proof.
  destruct v as [|x v]; cbn; [lia|]. intros _.
  pose proof (arg_max_from_bound 0 x 1 v). lia.
Qed.

Lemma arg_max_from_zeros (best i n : nat) (rest : RealVector) :
  blas.arg_max_from best 0%float i (replicate n 0%float ++ rest)
  = blas.arg_max_from best 0%float (i + n) rest.
Proof.
  revert i. induction n as [|n IH]; intros i; cbn.
  - now rewrite Nat.add_0_r.
  - change (0 <? 0)%float with false. cbn. rewrite IH. f_equal. lia.
Qed.

Lemma arg_max_from_top (best i n : nat) (w : float) :
  (w <? 0)%float = false →
  blas.arg_max_from best w i (replicate n 0%float) = best.
Proof.
  intros Hw. revert i. induction n as [|n IH]; intros i; cbn; [done|].
  now rewrite Hw.
Qed.

(** A row of zeros with one positive entry has its [arg_max] there. *)
Lemma arg_max_single_vote (columns c : nat) (w : float) :
  c < columns → (0 <? w)%float = true →
  blas.arg_max (<[c := w]> (replicate columns 0%float)) = c.
Proof.
  intros Hc Hw. rewrite insert_replicate_lt by done.
  pose proof (positive_not_below_zero w Hw) as Hw'.
  destruct c as [|c]; cbn.
  - now apply arg_max_from_top.
  - rewrite arg_max_from_zeros. cbn. rewrite Hw. now apply arg_max_from_top.
Qed.

End ArgMax.

(** ** MeanModel: the ensemble as its callers see it *)

Module MeanModelUse.
Import MeanModel.

Section Ensemble.

Context {ModelType BatchInputType : Type}.
Variable model_eval : ModelType → BatchInputType → RealMatrix.
Implicit Types (self other : MeanModel ModelType) (model : ModelType)
  (cs : list (Call ModelType)).

(** No call leaves a model without a weight entry. *)
Lemma call_keeps_weight_entries (c : Call ModelType) self :
  numberOfModels self ≤ length (m_weight self) →
  numberOfModels (snd (call c self)) ≤ length (m_weight (snd (call c self))).
Proof.
  unfold numberOfModels. intros Hsize. destruct c as [model w|i w|]; cbn [call].
  - destruct (0 <? w)%float eqn:Hw.
    + rewrite MeanModelProofs.addModel_accepts by done. cbn. rewrite !length_app. cbn. lia.
    + now rewrite MeanModelProofs.addModel_refuses.
  - destruct (m_weight self !! i) as [old|] eqn:Hi.
    + rewrite (MeanModelProofs.setWeight_stores _ _ _ _ Hi). cbn. now rewrite length_insert.
    + unfold setWeight. method_steps. now rewrite Hi.
  - cbn. lia.
Qed.

(** X1: every sequence of [addModel], [setWeight] and [clearModels] calls,
    accepted or refused, leaves the ensemble with at least as many weight
    entries as models: [m_weight[i]] is in range for every model [i]. *)
Theorem calls_keep_weight_entries cs self :
  numberOfModels self ≤ length (m_weight self) →
  numberOfModels (calls cs self) ≤ length (m_weight (calls cs self)).
Proof.
  revert self. induction cs as [|c cs IH]; intros self Hsize; [done|].
  apply (IH (snd (call c self))). now apply call_keeps_weight_entries.
Qed.

(** X3: every sequence of [addModel] and [clearModels] calls leaves every
    stored weight at least zero, when the weights were so before: a weight
    is one that [addModel] accepted, which is greater than zero, or a zero
    left by [clearModels]. *)
Theorem calls_keep_weights_nonnegative cs self :
  Forall not_setWeight cs →
  Forall (λ w, (0 <=? w)%float = true) (m_weight self) →
  Forall (λ w, (0 <=? w)%float = true) (m_weight (calls cs self)).
Proof.
  intros Hcs. revert self.
  induction Hcs as [|c cs Hc _ IH]; intros self Hself; [done|].
  apply (IH (snd (call c self))).
  destruct c as [model w| |]; cbn [call].
  - destruct (0 <? w)%float eqn:Hw.
    + rewrite MeanModelProofs.addModel_accepts by done. cbn.
      apply Forall_app. split; [done|].
      constructor; [now apply positive_at_least_zero | constructor].
    + now rewrite MeanModelProofs.addModel_refuses.
  - destruct Hc.
  - cbn. unfold blas.clear. now apply Forall_replicate.
Qed.

(** X4: for an index in range, [setWeight] returns, [weight(i)] then
    answers the new weight, every other weight is as before and so are the
    models. *)
Theorem setWeight_then_weight self (i : nat) (newWeight : float) :
  i < length (m_weight self) →
  let self' := snd (setWeight i newWeight self) in
  fst (setWeight i newWeight self) = Ok tt ∧
  weight self' i = Ok newWeight ∧
  (∀ j, j ≠ i → weight self' j = weight self j) ∧
  m_models self' = m_models self.
Proof.
  intros Hi. destruct (lookup_lt_is_Some_2 _ _ Hi) as [old Hold].
  cbv zeta. rewrite (MeanModelProofs.setWeight_stores _ _ _ _ Hold). cbn.
  unfold weight. cbn. repeat split.
  - now rewrite list_lookup_insert_eq.
  - intros j Hj. now rewrite list_lookup_insert_ne.
Qed.

(** X5: [setWeight] has no check of the weight: a weight that is at most
    zero, which [addModel] refuses, is stored by [setWeight] at every index
    in range. *)
Theorem setWeight_skips_the_check self model (i : nat) (w : float) :
  (w <=? 0)%float = true →
  i < length (m_weight self) →
  fst (addModel model w self) = Throw (SharkException "Weights must be positive") ∧
  fst (setWeight i w self) = Ok tt ∧
  weight (snd (setWeight i w self)) i = Ok w.
Proof.
  intros Hw Hi. split.
  - now rewrite MeanModelProofs.addModel_refuses by (now apply leb_zero_not_positive).
  - destruct (lookup_lt_is_Some_2 _ _ Hi) as [old Hold].
    rewrite (MeanModelProofs.setWeight_stores _ _ _ _ Hold). cbn.
    unfold weight. cbn. now rewrite list_lookup_insert_eq.
Qed.

(** X6: an accepted [addModel] appends: the ensemble has one model more,
    [getModel] at the old number of models answers the model, [weight] at
    the old number of weight entries answers the weight, and both answer as
    before at every earlier index.  The two new indices are the same when
    the ensemble had one weight entry per model. *)
Theorem addModel_then_lookup self model (w : float) :
  (0 <? w)%float = true →
  let self' := snd (addModel model w self) in
  numberOfModels self' = S (numberOfModels self) ∧
  getModel self' (numberOfModels self) = Some model ∧
  weight self' (length (m_weight self)) = Ok w ∧
  (∀ j, j < numberOfModels self → getModel self' j = getModel self j) ∧
  (∀ j, j < length (m_weight self) → weight self' j = weight self j).
Proof.
  intros Hw. cbv zeta. rewrite MeanModelProofs.addModel_accepts by done.
  unfold numberOfModels, getModel, weight in *. cbn. repeat split.
  - rewrite length_app. cbn. lia.
  - rewrite lookup_app_r by lia. now rewrite Nat.sub_diag.
  - rewrite lookup_app_r by lia. now rewrite Nat.sub_diag.
  - intros j Hj. now rewrite lookup_app_l.
  - intros j Hj. now rewrite lookup_app_l.
Qed.

(** X7: [clearModels] removes the models but keeps the weight entries, as
    zeros: the first model added after it to an ensemble that had weight
    entries is the only model, and [weight(0)], the entry [doEval] pairs
    with it, is a stale zero; the weight added sits behind the old
    entries. *)
Theorem addModel_after_clearModels self model (w : float) :
  (0 <? w)%float = true →
  0 < length (m_weight self) →
  let self' := snd (addModel model w (snd (clearModels self))) in
  numberOfModels self' = 1 ∧
  getModel self' 0 = Some model ∧
  weight self' 0 = Ok 0%float ∧
  weight self' (length (m_weight self)) = Ok w ∧
  length (m_weight self') = S (length (m_weight self)).
Proof.
  intros Hw Hsize. cbv zeta. rewrite MeanModelProofs.addModel_accepts by done.
  unfold numberOfModels, getModel, weight, blas.clear. cbn.
  rewrite length_app, length_replicate. cbn. repeat split; try lia.
  - rewrite lookup_app_l by (rewrite length_replicate; lia).
    now rewrite lookup_replicate_2.
  - rewrite lookup_app_r by (rewrite length_replicate; lia).
    now rewrite length_replicate, Nat.sub_diag.
Qed.

Lemma write_appends self (archive : list (Item ModelType)) :
  write self archive = (Ok tt, archive ++ snd (write self [])).
Proof. unfold write. method_steps. now rewrite <-!app_assoc. Qed.

(** X8: [read] undoes [write]: reading, into any ensemble, an archive that
    starts with what [write] streams for an ensemble gives that ensemble,
    models, weights and total, and the rest of the archive. *)
Theorem write_then_read self other (rest : list (Item ModelType)) :
  read other (snd (write self []) ++ rest) = Some (self, rest).
Proof. destruct self. reflexivity. Qed.

Lemma plus_assign_shape rows columns (m n : RealMatrix) :
  blas.has_shape rows columns m → blas.has_shape rows columns n →
  blas.has_shape rows columns (blas.plus_assign m n).
Proof.
  intros [Hm Hmc] [Hn Hnc]. unfold blas.plus_assign. split.
  - rewrite length_zip_with. lia.
  - apply Forall_lookup. intros i row Hrow.
    apply lookup_zip_with_Some in Hrow as (r1 & r2 & -> & H1 & H2).
    rewrite length_zip_with.
    rewrite (proj1 (Forall_lookup _ _) Hmc i r1 H1), (proj1 (Forall_lookup _ _) Hnc i r2 H2). lia.
Qed.

Lemma map_map_shape rows columns (f : float → float) (m : RealMatrix) :
  blas.has_shape rows columns m → blas.has_shape rows columns (map (map f) m).
Proof.
  intros [Hm Hmc]. split.
  - now rewrite length_map.
  - apply Forall_forall. intros row Hrow. apply list_elem_of_In, in_map_iff in Hrow as (r & <- & Hr).
    rewrite length_map. apply (proj1 (Forall_forall _ _) Hmc). now apply list_elem_of_In.
Qed.

Lemma doEval_loop_shape self (patterns : BatchInputType) rows columns
    (indices : list nat) (outputs : RealMatrix) :
  length (m_weight self) = numberOfModels self →
  Forall (λ model, blas.has_shape rows columns (model_eval model patterns)) (m_models self) →
  Forall (λ i, i < numberOfModels self) indices →
  blas.has_shape rows columns outputs →
  ∃ result, doEval_loop model_eval self patterns indices outputs = Ok result ∧
            blas.has_shape rows columns result.
Proof.
  intros Hsize Hmodels Hindices. revert outputs.
  induction Hindices as [|i indices Hi _ IH]; intros outputs Hout; [by eexists|].
  cbn. unfold numberOfModels in *.
  destruct (lookup_lt_is_Some_2 (m_models self) i Hi) as [model Hmodel].
  destruct (lookup_lt_is_Some_2 (m_weight self) i) as [w Hw]; [lia|].
  rewrite Hmodel, Hw. apply IH.
  apply plus_assign_shape; [done|]. apply map_map_shape.
  exact (proj1 (Forall_lookup _ _) Hmodels i model Hmodel).
Qed.

(** X9: on an ensemble with at least one model and a weight for every
    model, whose members all answer matrices of one shape, the averaging
    [doEval] fails no range check and answers a matrix of that shape. *)
Theorem doEval_shape self (patterns : BatchInputType) rows columns :
  0 < numberOfModels self →
  length (m_weight self) = numberOfModels self →
  Forall (λ model, blas.has_shape rows columns (model_eval model patterns)) (m_models self) →
  ∃ outputs, doEval model_eval self patterns = Ok outputs ∧
             blas.has_shape rows columns outputs.
Proof.
  intros Hpos Hsize Hmodels. unfold doEval, numberOfModels in *.
  destruct (lookup_lt_is_Some_2 (m_models self) 0 Hpos) as [model Hmodel].
  destruct (lookup_lt_is_Some_2 (m_weight self) 0) as [w Hw]; [lia|].
  rewrite Hmodel, Hw.
  destruct (doEval_loop_shape self patterns rows columns
              (seq 1 (length (m_models self) - 1))
              (blas.times_assign (model_eval model patterns) w))
    as (result & -> & Hshape); try done.
  - apply Forall_forall. intros i [? ?]%elem_of_seq. unfold numberOfModels. lia.
  - apply map_map_shape. exact (proj1 (Forall_lookup _ _) Hmodels 0 model Hmodel).
  - eexists. split; [done|]. now apply map_map_shape.
Qed.

End Ensemble.

Section Labels.

Lemma max_ge_start (v : list N) (start : N) : (start ≤ foldl N.max start v)%N.
Proof.
  revert start. induction v as [|c v IH]; intros start; cbn; [lia|].
  specialize (IH (N.max start c)). lia.
Qed.

Lemma max_ge_elem (v : list N) (start c : N) : c ∈ v → (c ≤ foldl N.max start v)%N.
Proof.
  revert start. induction v as [|x v IH]; intros start Hc; [by apply elem_of_nil in Hc|].
  cbn. apply elem_of_cons in Hc as [->|Hc].
  - pose proof (max_ge_start v (N.max start x)). lia.
  - now apply IH.
Qed.

Lemma max_below (v : list N) (start bound : N) :
  (start < bound)%N → Forall (λ c, (c < bound)%N) v → (foldl N.max start v < bound)%N.
Proof.
  intros Hstart Hv. revert start Hstart.
  induction Hv as [|c v Hc _ IH]; intros start Hstart; cbn; [done|].
  apply IH. lia.
Qed.

Lemma largest_ge_start (responses : list (list N)) (start : N) :
  (start ≤ foldl (λ n response, N.max n (blas.max response)) start responses)%N.
Proof.
  revert start. induction responses as [|r rs IH]; intros start; cbn; [lia|].
  specialize (IH (N.max start (blas.max r))). lia.
Qed.

Lemma label_le_largest (responses : list (list N)) (response : list N) (c : N) :
  response ∈ responses → c ∈ response → (c ≤ largest_label responses)%N.
Proof.
  unfold largest_label. generalize 0%N as start.
  induction responses as [|r rs IH]; intros start Hr Hc; [by apply elem_of_nil in Hr|].
  cbn. apply elem_of_cons in Hr as [->|Hr].
  - pose proof (largest_ge_start rs (N.max start (blas.max r))).
    pose proof (max_ge_elem r 0%N c Hc). unfold blas.max in *. lia.
  - now apply IH.
Qed.

Lemma largest_below (responses : list (list N)) (bound : N) :
  (0 < bound)%N →
  Forall (Forall (λ c, (c < bound)%N)) responses →
  (largest_label responses < bound)%N.
Proof.
  unfold largest_label. generalize 0%N as start.
  intros start Hstart Hrs. revert start Hstart.
  induction Hrs as [|r rs Hr _ IH]; intros start Hstart; cbn; [done|].
  apply IH. pose proof (max_below r 0%N bound ltac:(lia) Hr) as Hmax.
  unfold blas.max. lia.
Qed.

End Labels.

Section Loops.

Context {ModelType : Type}.
Implicit Types (self : MeanModel ModelType) (classProbs : RealMatrix).

Lemma add_vote_shape classProbs (batch columns p : nat) (c : N) (w : float) :
  blas.has_shape batch columns classProbs →
  p < batch → N.to_nat c < columns →
  ∃ classProbs', add_vote classProbs p c w = Ok classProbs' ∧
                 blas.has_shape batch columns classProbs'.
Proof.
  intros [Hrows Hcols] Hp Hc. unfold add_vote.
  destruct (lookup_lt_is_Some_2 classProbs p) as [row Hrow]; [lia|].
  pose proof (proj1 (Forall_lookup _ _) Hcols p row Hrow) as Hlen. cbn in Hlen.
  destruct (lookup_lt_is_Some_2 row (N.to_nat c)) as [x Hx]; [lia|].
  rewrite Hrow, Hx. eexists. split; [done|]. split.
  - now rewrite length_insert.
  - apply Forall_insert; [done|]. now rewrite length_insert.
Qed.

Lemma vote_patterns_shape (response : list N) (w : float) (batch columns : nat)
    (ps : list nat) classProbs :
  blas.has_shape batch columns classProbs →
  length response = batch →
  Forall (λ c, N.to_nat c < columns) response →
  Forall (λ p, p < batch) ps →
  ∃ classProbs', vote_patterns response w ps classProbs = Ok classProbs' ∧
                 blas.has_shape batch columns classProbs'.
Proof.
  intros Hshape Hlen Hlabels Hps. revert classProbs Hshape.
  induction Hps as [|p ps Hp _ IH]; intros classProbs Hshape; [by eexists|].
  cbn. destruct (lookup_lt_is_Some_2 response p) as [c Hc]; [lia|].
  rewrite Hc.
  destruct (add_vote_shape classProbs batch columns p c w) as (M & -> & HM); try done.
  - exact (proj1 (Forall_lookup _ _) Hlabels p c Hc).
  - now apply IH.
Qed.

Lemma vote_models_shape self (responses : list (list N)) (batch columns : nat)
    (indices : list nat) classProbs :
  blas.has_shape batch columns classProbs →
  length (m_weight self) = length responses →
  Forall (λ response, length response = batch ∧
                      Forall (λ c, N.to_nat c < columns) response) responses →
  Forall (λ i, i < length responses) indices →
  ∃ classProbs', vote_models self responses batch indices classProbs = Ok classProbs' ∧
                 blas.has_shape batch columns classProbs'.
Proof.
  intros Hshape Hsize Hresponses Hindices. revert classProbs Hshape.
  induction Hindices as [|i indices Hi _ IH]; intros classProbs Hshape; [by eexists|].
  cbn. destruct (lookup_lt_is_Some_2 responses i Hi) as [response Hresponse].
  destruct (lookup_lt_is_Some_2 (m_weight self) i) as [w Hw]; [lia|].
  rewrite Hresponse, Hw.
  destruct (proj1 (Forall_lookup _ _) Hresponses i response Hresponse) as [Hlen Hlabels].
  destruct (vote_patterns_shape response w batch columns (seq 0 batch) classProbs)
    as (M & -> & HM); try done.
  - apply Forall_forall. intros p [_ ?]%elem_of_seq. lia.
  - now apply IH.
Qed.

End Loops.

Section Vote.

Context {ModelType BatchInputType : Type}.
Variable model_classify : ModelType → BatchInputType → list N.
Variable size1 : BatchInputType → nat.
Implicit Types (self : MeanModel ModelType) (patterns : BatchInputType).

Lemma matrix_shape (rows columns : nat) (x : float) :
  blas.has_shape rows columns (blas.matrix rows columns x).
Proof.
  unfold blas.matrix. split; [apply length_replicate|].
  apply Forall_replicate, length_replicate.
Qed.

(** X10: when there is a weight for every model and every member answers
    one label below [UINT_MAX] for each pattern of the batch, the vote fails
    no range check, answers one class for each pattern, and no class is
    greater than the largest label any member answered. *)
Theorem doEval_vote_bounds self patterns :
  length (m_weight self) = numberOfModels self →
  Forall (λ model, length (model_classify model patterns) = size1 patterns ∧
                   Forall (λ c, (c < 2 ^ 32 - 1)%N) (model_classify model patterns))
         (m_models self) →
  ∃ outputs, doEval_vote model_classify size1 self patterns = Ok outputs ∧
    length outputs = size1 patterns ∧
    Forall (λ c, (c ≤ largest_label ((λ model, model_classify model patterns)
                                       <$> m_models self))%N) outputs.
Proof.
  intros Hsize Hmodels. unfold doEval_vote, numberOfModels in *.
  set (responses := (λ model, model_classify model patterns) <$> m_models self).
  assert (Forall (Forall (λ c, (c < 2 ^ 32 - 1)%N)) responses) as Hall.
  { apply Forall_fmap. eapply Forall_impl; [exact Hmodels|]. now intros model [_ ?]. }
  assert (largest_label responses < 2 ^ 32 - 1)%N as Hlargest
    by (apply largest_below; [done | exact Hall]).
  assert (numClasses_of responses = largest_label responses + 1)%N as Hnum.
  { unfold numClasses_of. apply N.mod_small. lia. }
  destruct (vote_models_shape self responses (size1 patterns)
              (N.to_nat (numClasses_of responses))
              (seq 0 (length (m_models self)))
              (blas.matrix (size1 patterns) (N.to_nat (numClasses_of responses)) 0%float))
    as (M & -> & [HMrows HMcols]).
  - apply matrix_shape.
  - unfold responses. now rewrite length_fmap.
  - apply Forall_forall. intros response Hresponse. unfold responses in Hresponse.
    apply list_elem_of_fmap in Hresponse as (model & -> & Hmodel).
    destruct (proj1 (Forall_forall _ _) Hmodels model Hmodel) as [Hlen Hlabels].
    split; [done|]. apply Forall_forall. intros c Hc.
    assert (c ≤ largest_label responses)%N.
    { apply (label_le_largest responses (model_classify model patterns)); [|done].
      unfold responses. apply list_elem_of_fmap. eauto. }
    lia.
  - apply Forall_forall. intros i [_ ?]%elem_of_seq. unfold responses.
    rewrite length_fmap. lia.
  - eexists. split; [done|]. split; [now rewrite length_fmap|].
    apply Forall_fmap, Forall_forall. intros row Hrow. cbn.
    pose proof (proj1 (Forall_forall _ _) HMcols row Hrow) as Hlen. cbn in Hlen.
    pose proof (arg_max_bound row). lia.
Qed.

(** The rows of the patterns voted so far, then the rows of zeros. *)
Lemma vote_patterns_first (response : list N) (w : float) (columns k j : nat) :
  j + k = length response →
  Forall (λ c, N.to_nat c < columns) response →
  vote_patterns response w (seq j k)
    (((λ c, <[N.to_nat c := (0 + w)%float]> (replicate columns 0%float)) <$> take j response)
     ++ replicate k (replicate columns 0%float))
  = Ok ((λ c, <[N.to_nat c := (0 + w)%float]> (replicate columns 0%float)) <$> response).
Proof.
  intros Hjk Hlabels. revert j Hjk.
  induction k as [|k IH]; intros j Hjk.
  - cbn. rewrite app_nil_r, take_ge by lia. done.
  - cbn [seq vote_patterns].
    destruct (lookup_lt_is_Some_2 response j) as [c Hc]; [lia|].
    pose proof (proj1 (Forall_lookup _ _) Hlabels j c Hc) as Hcol. cbn in Hcol.
    rewrite Hc. unfold add_vote.
    assert (length ((λ c, <[N.to_nat c := (0 + w)%float]> (replicate columns 0%float))
                      <$> take j response) = j) as Hdone
      by (rewrite length_fmap, length_take_le; lia).
    rewrite lookup_app_r by lia. rewrite Hdone, Nat.sub_diag. cbn.
    rewrite lookup_replicate_2 by done.
    rewrite <-(Nat.add_0_r j) at 2. rewrite <-Hdone at 2.
    rewrite insert_app_r. cbn.
    specialize (IH (S j)).
    rewrite (take_S_r response j c Hc), fmap_app, <-app_assoc in IH. cbn in IH.
    apply IH. lia.
Qed.

(** X11: an ensemble of one classifier with a weight greater than zero
    answers the labels of that classifier. *)
Theorem doEval_vote_single self patterns model (w : float) :
  m_models self = [model] →
  m_weight self = [w] →
  (0 <? w)%float = true →
  length (model_classify model patterns) = size1 patterns →
  Forall (λ c, (c < 2 ^ 32 - 1)%N) (model_classify model patterns) →
  doEval_vote model_classify size1 self patterns = Ok (model_classify model patterns).
Proof.
  intros Hmodels Hweight Hw Hlen Hlabels.
  unfold doEval_vote. rewrite Hmodels. cbn [fmap list_fmap length seq vote_models].
  set (response := model_classify model patterns) in *.
  rewrite Hweight. cbn [lookup list_lookup].
  assert (largest_label [response] < 2 ^ 32 - 1)%N as Hlargest
    by (apply largest_below; [done | now repeat constructor]).
  assert (numClasses_of [response] = largest_label [response] + 1)%N as Hnum.
  { unfold numClasses_of. apply N.mod_small. lia. }
  assert (Forall (λ c, N.to_nat c < N.to_nat (numClasses_of [response])) response) as Hcols.
  { apply Forall_forall. intros c Hc.
    pose proof (label_le_largest [response] response c ltac:(left) Hc). lia. }
  pose proof (vote_patterns_first response w (N.to_nat (numClasses_of [response]))
                (size1 patterns) 0) as Hvote.
  rewrite take_0, fmap_nil, app_nil_l in Hvote. unfold blas.matrix.
  rewrite Hvote by (cbn; done).
  f_equal. rewrite <-list_fmap_compose.
  rewrite <-(list_fmap_id response) at 2.
  apply list_fmap_ext. intros i c Hc. cbn.
  pose proof (proj1 (Forall_lookup _ _) Hcols i c Hc) as Hcol. cbn in Hcol.
  rewrite (zero_plus_positive w Hw).
  rewrite arg_max_single_vote by done. lia.
Qed.

(** X12: an ensemble without models answers class 0 for every pattern. *)
Theorem doEval_vote_no_models (self : MeanModel ModelType) (patterns : BatchInputType) :
  m_models self = [] →
  doEval_vote model_classify size1 self patterns = Ok (replicate (size1 patterns) 0%N).
Proof.
  intros Hmodels. unfold doEval_vote. rewrite Hmodels. cbn.
  unfold blas.matrix. now rewrite fmap_replicate.
Qed.
End Vote.

(** The calls [mixed_calls] on a new ensemble. *)
Lemma calls_keep_weight_entries_witness :
  numberOfModels (calls Examples.mixed_calls ctor)
    ≤ length (m_weight (calls Examples.mixed_calls ctor)).
Proof. apply (calls_keep_weight_entries Examples.mixed_calls ctor). vm_compute. lia. Defined.

(** The calls [adding_calls] on a new ensemble. *)
Lemma calls_keep_weights_nonnegative_witness :
  Forall (λ w, (0 <=? w)%float = true) (m_weight (calls Examples.adding_calls ctor)).
Proof.
  apply (calls_keep_weights_nonnegative Examples.adding_calls ctor).
  - apply (bool_decide_unpack _). vm_compute. reflexivity.
  - constructor.
Defined.

(** A model of weight 4 added to [two_models] after [clearModels]. *)
Example two_models_cleared :
  snd (addModel tt 4%float (snd (clearModels Examples.two_models)))
    = {| m_models := [tt]; m_weight := [0%float; 0%float; 4%float];
         m_weightSum := 4%float |}.
Proof. vm_compute. reflexivity. Qed.

Lemma addModel_after_clearModels_witness :
  numberOfModels (snd (addModel tt 4%float (snd (clearModels Examples.two_models)))) = 1 ∧
  getModel (snd (addModel tt 4%float (snd (clearModels Examples.two_models)))) 0 = Some tt ∧
  weight (snd (addModel tt 4%float (snd (clearModels Examples.two_models)))) 0
    = Ok 0%float ∧
  weight (snd (addModel tt 4%float (snd (clearModels Examples.two_models)))) 2
    = Ok 4%float ∧
  length (m_weight (snd (addModel tt 4%float (snd (clearModels Examples.two_models)))))
    = 3.
Proof.
  apply (addModel_after_clearModels Examples.two_models tt 4%float).
  - reflexivity.
  - vm_compute. lia.
Defined.

(** The second weight of [two_models] set to 5. *)
Lemma setWeight_then_weight_witness :
  fst (setWeight 1 5%float Examples.two_models) = Ok tt ∧
  weight (snd (setWeight 1 5%float Examples.two_models)) 1 = Ok 5%float ∧
  (∀ j, j ≠ 1 → weight (snd (setWeight 1 5%float Examples.two_models)) j
                = weight Examples.two_models j) ∧
  m_models (snd (setWeight 1 5%float Examples.two_models)) = m_models Examples.two_models.
Proof. apply (setWeight_then_weight Examples.two_models 1 5%float). vm_compute. lia. Defined.

(** The first weight of [two_models] set to -1. *)
Lemma setWeight_skips_the_check_witness :
  fst (addModel tt (-1)%float Examples.two_models)
    = Throw (SharkException "Weights must be positive") ∧
  fst (setWeight 0 (-1)%float Examples.two_models) = Ok tt ∧
  weight (snd (setWeight 0 (-1)%float Examples.two_models)) 0 = Ok (-1)%float.
Proof.
  apply (setWeight_skips_the_check Examples.two_models tt 0 (-1)%float).
  - reflexivity.
  - vm_compute. lia.
Defined.

(** A third model of weight 4 added to [two_models]. *)
Lemma addModel_then_lookup_witness :
  numberOfModels (snd (addModel tt 4%float Examples.two_models)) = 3 ∧
  getModel (snd (addModel tt 4%float Examples.two_models)) 2 = Some tt ∧
  weight (snd (addModel tt 4%float Examples.two_models)) 2 = Ok 4%float ∧
  (∀ j, j < 2 → getModel (snd (addModel tt 4%float Examples.two_models)) j
                 = getModel Examples.two_models j) ∧
  (∀ j, j < 2 → weight (snd (addModel tt 4%float Examples.two_models)) j
                 = weight Examples.two_models j).
Proof.
  apply (addModel_then_lookup Examples.two_models tt 4%float). reflexivity.
Defined.

(** The mean of [two_models] when both members answer [six]. *)
Lemma doEval_shape_witness :
  ∃ outputs, doEval Examples.six Examples.two_models tt = Ok outputs ∧
             blas.has_shape 1 1 outputs.
Proof.
  apply (doEval_shape Examples.six Examples.two_models tt 1 1).
  - vm_compute. lia.
  - reflexivity.
  - apply (bool_decide_unpack _). vm_compute. reflexivity.
Defined.

(** The vote of [three_voters]: the classes are 1 and 2. *)
Example three_voters_vote :
  doEval_vote Examples.fixed_labels Examples.batch_of_two Examples.three_voters tt
    = Ok [1; 2]%N.
Proof. vm_compute. reflexivity. Qed.

Lemma doEval_vote_bounds_witness :
  ∃ outputs,
    doEval_vote Examples.fixed_labels Examples.batch_of_two Examples.three_voters tt
      = Ok outputs ∧
    length outputs = 2 ∧
    Forall (λ c, (c ≤ largest_label
                        ((λ model, Examples.fixed_labels model tt)
                           <$> m_models Examples.three_voters))%N) outputs.
Proof.
  apply (doEval_vote_bounds Examples.fixed_labels Examples.batch_of_two
           Examples.three_voters tt).
  - reflexivity.
  - apply (bool_decide_unpack _). vm_compute. reflexivity.
Defined.

(** The vote of [one_voter]. *)
Lemma doEval_vote_single_witness :
  doEval_vote Examples.fixed_labels Examples.batch_of_two Examples.one_voter tt
    = Ok [3; 0]%N.
Proof.
  apply (doEval_vote_single Examples.fixed_labels Examples.batch_of_two
           Examples.one_voter tt [3; 0]%N 0.5%float).
  - reflexivity.
  - reflexivity.
  - reflexivity.
  - reflexivity.
  - apply (bool_decide_unpack _). vm_compute. reflexivity.
Defined.

(** The vote of a new ensemble. *)
Lemma doEval_vote_no_models_witness :
  doEval_vote Examples.fixed_labels Examples.batch_of_two ctor tt = Ok [0; 0]%N.
Proof.
  apply (doEval_vote_no_models Examples.fixed_labels Examples.batch_of_two ctor tt).
  reflexivity.
Defined.

(** The calls [adding_calls] on a new ensemble keep the total. *)
Lemma calls_consistent_witness :
  weightSum_consistent (calls Examples.adding_calls ctor).
Proof.
  apply (MeanModelProofs.calls_consistent Examples.adding_calls ctor).
  - apply (bool_decide_unpack _). vm_compute. reflexivity.
  - reflexivity.
Defined.

End MeanModelUse.

(** ** OnlineRNNet: teacher forcing *)

Module TeacherForcing.
Import OnlineRNNet.

Section Forcing.

Implicit Types (self : OnlineRNNet) (s : InternalState).

(** X13: a second [setOutputActivation] overrides the first: on a state of
    the topology, forcing one vector of outputs and then another leaves the
    state that forcing the second alone leaves. *)
Theorem setOutputActivation_overrides self (first second : RealVector) s :
  outputSize self ≤ numberOfUnits (mpe_structure self) →
  length (activation s) = numberOfUnits (mpe_structure self) →
  length first = outputSize self →
  length second = outputSize self →
  setOutputActivation self second (snd (setOutputActivation self first s))
  = setOutputActivation self second s.
Proof.
  intros Hle Hlen Hfirst Hsecond.
  rewrite (OnlineRNNetProofs.setOutputActivation_assigns self first s) by done. cbn [snd].
  rewrite !OnlineRNNetProofs.setOutputActivation_assigns; try done.
  - cbn. do 3 f_equal. rewrite take_app_le by (rewrite length_take_le; lia).
    rewrite take_take. f_equal. lia.
  - cbn. rewrite length_app, length_take_le by lia. lia.
Qed.

(** X14: whatever the state and the values, and whether the call returns
    or throws, after [setOutputActivation] the activation has
    [numberOfUnits] entries, and the previous activation and the gradient
    matrix are as before. *)
Theorem setOutputActivation_resizes self (values : RealVector) s :
  let s' := snd (setOutputActivation self values s) in
  length (activation s') = numberOfUnits (mpe_structure self) ∧
  lastActivation s' = lastActivation s ∧
  unitGradient s' = unitGradient s.
Proof.
  cbv zeta. unfold setOutputActivation. method_steps. unfold blas.resize.
  repeat case_decide; cbn; repeat split; try apply length_resize.
  rewrite !length_app, length_take, length_drop, length_resize. lia.
Qed.

(** X15: a newly constructed state accepts forced outputs: its activation
    becomes zeros followed by the values, the rest of the state stays
    zero. *)
Theorem setOutputActivation_on_new_state self (values : RealVector) :
  outputSize self ≤ numberOfUnits (mpe_structure self) →
  length values = outputSize self →
  setOutputActivation self values (InternalState_ctor (mpe_structure self)) =
    (Ok tt,
     {| activation :=
          replicate (numberOfUnits (mpe_structure self) - outputSize self) 0%float ++ values;
        lastActivation := blas.vector (numberOfUnits (mpe_structure self)) 0%float;
        unitGradient :=
          blas.matrix (numberOfParameters self) (numberOfNeurons (mpe_structure self)) 0%float |}).
Proof.
  intros Hle Hvalues.
  rewrite OnlineRNNetProofs.setOutputActivation_assigns; try done.
  - cbn. unfold blas.vector. rewrite take_replicate. do 4 f_equal. lia.
  - cbn. apply length_replicate.
Qed.

End Forcing.

(** Forcing 7 and then 9 on the state of [tiny] after two steps. *)
Lemma setOutputActivation_overrides_witness :
  setOutputActivation Examples.tiny_net [9%float]
    (snd (setOutputActivation Examples.tiny_net [7%float] Examples.tiny_after_two))
  = setOutputActivation Examples.tiny_net [9%float] Examples.tiny_after_two.
Proof.
  apply (setOutputActivation_overrides Examples.tiny_net [7%float] [9%float]
           Examples.tiny_after_two).
  - vm_compute. lia.
  - reflexivity.
  - reflexivity.
  - reflexivity.
Defined.

(** Forcing 7 on a new state of [tiny]. *)
Lemma setOutputActivation_on_new_state_witness :
  setOutputActivation Examples.tiny_net [7%float] (InternalState_ctor Examples.tiny) =
    (Ok tt,
     {| activation := replicate (2 - 1) 0%float ++ [7%float];
        lastActivation := blas.vector 2 0%float;
        unitGradient := blas.matrix 2 1 0%float |}).
Proof.
  apply (setOutputActivation_on_new_state Examples.tiny_net [7%float]).
  - vm_compute. lia.
  - reflexivity.
Defined.

End TeacherForcing.

(** ** Sphere *)

Module SphereProofs.
Import Sphere.

Section Benchmark.

Context {Rng : Type}.
Variable uni : float → float → Rng → float * Rng.
Variable counter_values : N.
Implicit Types (self : Sphere) (rng : Rng) (x : RealVector).

Lemma norm_sqr_origin (n : nat) : blas.norm_sqr (replicate n 0%float) = 0%float.
Proof. unfold blas.norm_sqr. induction n as [|n IH]; [done|]. cbn. exact IH. Qed.

(** X16: [eval] at the origin is zero, in every dimension and whatever the
    number of variables of the function. *)
Theorem eval_origin self (n : nat) :
  fst (eval counter_values (replicate n 0%float) self) = Ok 0%float.
Proof. unfold eval. method_steps. now rewrite norm_sqr_origin. Qed.

(** X17: a series of [eval] calls answers the squared norm of each point,
    advances the evaluation counter by the number of calls, modulo the
    number of values of its type, and leaves the number of variables and
    the features alone. *)
Theorem evals_count (points : list RealVector) self :
  (m_evaluationCounter self < counter_values)%N →
  let self' := snd (evals counter_values points self) in
  m_evaluationCounter self' =
    ((m_evaluationCounter self + N.of_nat (length points)) mod counter_values)%N ∧
  m_numberOfVariables self' = m_numberOfVariables self ∧
  m_features self' = m_features self ∧
  fst (evals counter_values points self) = (λ p, Ok (blas.norm_sqr p)) <$> points.
Proof.
  cbv zeta. revert self. induction points as [|p points IH]; intros self Hc.
  - cbn. rewrite N.add_0_r, N.mod_small by done. done.
  - cbn [evals]. 
    assert (counter_values ≠ 0)%N as HM by lia.
    destruct (IH (snd (eval counter_values p self))) as (Hcount & Hvars & Hfeat & Hvals).
    { cbn. now apply N.mod_upper_bound. }
    cbn [snd fst]. rewrite Hcount, Hvars, Hfeat, Hvals. cbn.
    repeat split.
    rewrite N.Div0.add_mod_idemp_l. f_equal. lia.
Qed.

Lemma loop_draws (n k i fuel : nat) x rng :
  (N.of_nat n < 2 ^ 32)%N →
  length x = n → i + k = n → k < fuel →
  proposeStartingPoint_loop uni fuel (N.of_nat i) x rng =
    Some (take i x ++ fst (draws uni k rng), snd (draws uni k rng)).
Proof.
  intros Hn Hlen. revert i fuel x rng Hlen.
  induction k as [|k IH]; intros i fuel x rng Hlen Hik Hfuel.
  - destruct fuel as [|fuel]; [lia|]. cbn.
    rewrite (proj2 (N.ltb_ge _ _)) by lia.
    rewrite app_nil_r, take_ge by lia. done.
  - destruct fuel as [|fuel]; [lia|]. cbn [proposeStartingPoint_loop draws fst snd].
    rewrite (proj2 (N.ltb_lt _ _)) by lia.
    rewrite N.mod_small by lia.
    replace (N.of_nat i + 1)%N with (N.of_nat (S i)) by lia.
    rewrite Nat2N.id.
    rewrite IH; [| now rewrite length_insert | lia | lia].
    rewrite (take_S_r (<[i := fst (uni 0%float 1%float rng)]> x) i
               (fst (uni 0%float 1%float rng)))
      by (apply list_lookup_insert_eq; lia).
    rewrite take_insert_ge by lia. now rewrite <-app_assoc.
Qed.

(** X18: with fewer than 2^32 variables, and enough tests of the loop
    condition allowed, [proposeStartingPoint] returns: the point holds the
    next [numberOfVariables] doubles of the generator, in order, whatever [x]
    held before, and the generator has moved on by as many draws. *)
Theorem proposeStartingPoint_draws self x rng (fuel : nat) :
  (numberOfVariables self < 2 ^ 32)%N →
  N.to_nat (numberOfVariables self) < fuel →
  proposeStartingPoint uni fuel self x rng =
    Some (draws uni (N.to_nat (numberOfVariables self)) rng).
Proof.
  intros Hn Hfuel. unfold proposeStartingPoint, blas.resize.
  rewrite (loop_draws (N.to_nat (numberOfVariables self))
             (N.to_nat (numberOfVariables self)) 0 fuel); try done.
  - cbn. now destruct (draws uni _ rng).
  - lia.
  - apply length_resize.
Qed.

Lemma loop_wraps (fuel : nat) (i : N) x rng :
  (2 ^ 32 ≤ N.of_nat (length x))%N → (i < 2 ^ 32)%N →
  proposeStartingPoint_loop uni fuel i x rng = None.
Proof.
  revert i x rng. induction fuel as [|fuel IH]; intros i x rng Hx Hi; [done|].
  cbn. rewrite (proj2 (N.ltb_lt _ _)) by lia.
  apply IH.
  - now rewrite length_insert.
  - now apply N.mod_upper_bound.
Qed.

(** X19: with 2^32 variables or more, [proposeStartingPoint] does not
    return, however many tests of the loop condition are allowed: the
    32-bit index wraps around before it reaches the size of the point. *)
Theorem proposeStartingPoint_never_returns self x rng (fuel : nat) :
  (2 ^ 32 ≤ numberOfVariables self)%N →
  proposeStartingPoint uni fuel self x rng = None.
Proof.
  intros Hn. unfold proposeStartingPoint, blas.resize.
  apply loop_wraps; [|done]. rewrite length_resize. lia.
Qed.

End Benchmark.

(** Two evaluations on [sphere3]. *)
Lemma evals_count_witness :
  m_evaluationCounter
    (snd (evals (2 ^ 64) [[1%float; 2%float]; [3%float]] Examples.sphere3))
    = ((0 + N.of_nat 2) mod 2 ^ 64)%N ∧
  m_numberOfVariables
    (snd (evals (2 ^ 64) [[1%float; 2%float]; [3%float]] Examples.sphere3)) = 3%N ∧
  m_features (snd (evals (2 ^ 64) [[1%float; 2%float]; [3%float]] Examples.sphere3)) = 0%N ∧
  fst (evals (2 ^ 64) [[1%float; 2%float]; [3%float]] Examples.sphere3)
    = (λ p, Ok (blas.norm_sqr p)) <$> [[1%float; 2%float]; [3%float]].
Proof.
  apply (evals_count (2 ^ 64) [[1%float; 2%float]; [3%float]] Examples.sphere3).
  vm_compute. reflexivity.
Defined.

(** A starting point for [sphere3] from the generator [alternating]. *)
Example sphere3_starting_point :
  proposeStartingPoint Examples.alternating 4 Examples.sphere3 [9%float] 0
    = Some ([0.25%float; 0.5%float; 0.25%float], 3).
Proof. vm_compute. reflexivity. Qed.

Lemma proposeStartingPoint_draws_witness :
  proposeStartingPoint Examples.alternating 4 Examples.sphere3 [9%float] 0
    = Some (draws Examples.alternating (N.to_nat 3) 0).
Proof.
  apply (proposeStartingPoint_draws Examples.alternating Examples.sphere3 [9%float] 0 4).
  - vm_compute. reflexivity.
  - vm_compute. lia.
Defined.

(** A starting point asked of [sphere_huge]. *)
Lemma proposeStartingPoint_never_returns_witness :
  proposeStartingPoint Examples.alternating 1000 Examples.sphere_huge [] 0 = None.
Proof.
  apply (proposeStartingPoint_never_returns Examples.alternating Examples.sphere_huge [] 0 1000).
  vm_compute. discriminate.
Defined.

End SphereProofs.
